(** * sysmon: a shallow embedding of [sysmon.py] and its checked properties

    The monitor samples kernel counters once per second, derives rates
    from two consecutive snapshots and prints one status line.

    Modelling conventions.
    - Python [int] is [Z] (unbounded).
    - A Python [float] is carried as the exact rational ([Q]) of which
      the double is the rounding to nearest; equality of floats is read
      as [Qeq].  The exceptions of float arithmetic are exact: an int
      that does not fit a double, or a quotient of two ints that does
      not, raises [OverflowError] at the same inputs as the interpreter.
      A float product or difference that overflows raises nothing in
      Python and gives an infinity; it is carried as its exact value.
      Every statement below on a value holds of the doubles the program
      computes: it is about a sign, an order, a zero, or a value that
      binary64 represents and the operations return exactly.  The CPU
      formula is evaluated on IEEE doubles as well ([cpu_pct_b64]).
    - Python [str] is [string]; an [ascii] stands for the code point of
      the same number (0..255).  The status line, which carries code
      points outside that range, is a list over an arbitrary character
      type.
    - A raised exception is a value of [exn] carried by [result]; the
      order of evaluation of the source is kept, so the exception that is
      reported is the first one Python would raise.
    - Files are given by their content: a list of lines for a file that is
      iterated, a line for [readline()].  A line may keep its final
      newline or not: every reader splits or strips it away. *)

From Stdlib Require Import ZArith QArith Lia Lqa List Ascii String.
From Stdlib Require Import Floats.PrimFloat Floats.SpecFloat Floats.FloatOps.
Import ListNotations.

Local Open Scope string_scope.
Local Open Scope list_scope.
Local Open Scope Z_scope.

(** ** Exceptions and results *)

Inductive exn : Set :=
| IndexError
| ValueError
| ZeroDivisionError
| OverflowError.

Inductive result (A : Type) : Type :=
| Ok (a : A)
| Raise (e : exn).

Arguments Ok {A} a.
Arguments Raise {A} e.

Definition bind {A B : Type} (r : result A) (k : A -> result B) : result B :=
  match r with
  | Ok a => k a
  | Raise e => Raise e
  end.

Notation "x <- c ;; k" := (bind c (fun x => k))
  (at level 61, c at next level, right associativity).
Notation "' pat <- c ;; k" := (bind c (fun x => match x with pat => k end))
  (at level 61, pat pattern, c at next level, right associativity).

Definition succeeds {A : Type} (r : result A) : Prop :=
  match r with
  | Ok _ => True
  | Raise _ => False
  end.

Definition raises {A : Type} (r : result A) : Prop :=
  match r with
  | Ok _ => False
  | Raise _ => True
  end.

(** [returns_q r q]: the call returned a float equal to [q]. *)
Definition returns_q (r : result Q) (q : Q) : Prop :=
  match r with
  | Ok v => (v == q)%Q
  | Raise _ => False
  end.

(** ** Python arithmetic *)

(** The least magnitude that does not fit a double.  The largest double
    is [2^1024 - 2^971]; halfway to [2^1024] the rounding to nearest
    (ties to even) goes up, so every magnitude from [2^1024 - 2^970] on
    overflows. *)
Definition dbl_overflow : Z := 2 ^ 1024 - 2 ^ 970.

(** Conversion of an int operand to a float, as [int * float] and
    [float / int] do it: [OverflowError] when the int does not fit. *)
Definition float_of_int (n : Z) : result Q :=
  if dbl_overflow <=? Z.abs n then Raise OverflowError
  else Ok (inject_Z n).

(** [a / b] on two ints: true division.  [ZeroDivisionError] when [b] is
    0, else [OverflowError] when the correctly rounded quotient does not
    fit a double, that is when [|a / b| >= 2^1024 - 2^970]. *)
Definition int_truediv (a b : Z) : result Q :=
  if b =? 0 then Raise ZeroDivisionError
  else if dbl_overflow * Z.abs b <=? Z.abs a then Raise OverflowError
  else Ok (inject_Z a / inject_Z b)%Q.

(** [n * x] with an int [n] and a float [x]: the int is converted first. *)
Definition int_mul_float (n : Z) (x : Q) : result Q :=
  u <- float_of_int n ;;
  Ok (u * x)%Q.

(** [x / b] with a float [x] and an int [b]: the int is converted first,
    then a zero divisor raises [ZeroDivisionError]. *)
Definition float_div_int (x : Q) (b : Z) : result Q :=
  d <- float_of_int b ;;
  if b =? 0 then Raise ZeroDivisionError
  else Ok (x / d)%Q.

(** ** The snapshot kept between two ticks *)

Record Prev : Type := mkPrev {
  cpu_idle : Z;
  cpu_total : Z;
  disk_read : Q;
  disk_write : Q;
  net_rx : Q;
  net_tx : Q
}.

(** ** CPU utilisation (lines 93-95 of [main])

    [cpu_pct = (1.0 - d_idle / d_total) * 100.0 if d_total else 0.0]:
    the condition is evaluated first, and the division only when
    [d_total] is truthy, that is non-zero. *)
Definition cpu_pct (prev : Prev) (idle1 total1 : Z) : result Q :=
  let d_idle := idle1 - cpu_idle prev in
  let d_total := total1 - cpu_total prev in
  if negb (d_total =? 0) then
    q <- int_truediv d_idle d_total ;;
    Ok ((1 - q) * 100)%Q
  else Ok 0%Q.

(** ** Python string operations *)

(** [str.isspace] on one character, for code points below 256:
    TAB, LF, VT, FF, CR, FS, GS, RS, US, SPACE, NEL and NBSP. *)
Definition is_space (c : ascii) : bool :=
  let n := Z.of_nat (nat_of_ascii c) in
  ((9 <=? n) && (n <=? 13)) || ((28 <=? n) && (n <=? 32))
  || (n =? 133) || (n =? 160).

Definition is_empty (s : string) : bool :=
  match s with
  | EmptyString => true
  | String _ _ => false
  end.

(** [s.split()]: the maximal runs of non-whitespace characters, in order.
    [cur] is the run being read. *)
Fixpoint split_ws (s : string) (cur : string) : list string :=
  match s with
  | EmptyString => if is_empty cur then [] else [cur]
  | String c s' =>
      if is_space c then
        if is_empty cur then split_ws s' "" else cur :: split_ws s' ""
      else split_ws s' (String.append cur (String c ""))
  end.

Definition py_split (s : string) : list string := split_ws s "".

Fixpoint lstrip (space : ascii -> bool) (s : string) : string :=
  match s with
  | EmptyString => EmptyString
  | String c s' => if space c then lstrip space s' else s
  end.

Fixpoint rstrip (space : ascii -> bool) (s : string) : string :=
  match s with
  | EmptyString => EmptyString
  | String c s' =>
      let r := rstrip space s' in
      if space c && is_empty r then EmptyString else String c r
  end.

(** [s.strip()] *)
Definition py_strip (s : string) : string :=
  rstrip is_space (lstrip is_space s).

(** [s.split(':', 1)]: the text before the first colon and the text after
    it, or the whole string alone when it has no colon. *)
Fixpoint split_colon (s : string) (before : string) : list string :=
  match s with
  | EmptyString => [before]
  | String c s' =>
      if Ascii.eqb c ":" then [before; s']
      else split_colon s' (String.append before (String c ""))
  end.

(** [a, b = xs]: unpacking into two names raises [ValueError] unless the
    list has exactly two elements. *)
Definition unpack2 (xs : list string) : result (string * string) :=
  match xs with
  | [a; b] => Ok (a, b)
  | _ => Raise ValueError
  end.

(** [name.startswith((p1, ..., pn))] *)
Definition startswith (name : string) (prefixes : list string) : bool :=
  existsb (fun p => String.prefix p name) prefixes.

(** [xs[i]] for a non-negative literal [i]. *)
Definition index {A : Type} (xs : list A) (i : nat) : result A :=
  match nth_error xs i with
  | Some x => Ok x
  | None => Raise IndexError
  end.

(** [xs[lo:hi]] for non-negative literals [lo <= hi]. *)
Definition slice {A : Type} (xs : list A) (lo hi : nat) : list A :=
  firstn (hi - lo) (skipn lo xs).

(** [s[:k]] for any int [k]: a negative stop counts from the end, and both
    ends are clipped to the sequence. *)
Definition slice_to {A : Type} (xs : list A) (k : Z) : list A :=
  if k <? 0 then firstn (Z.to_nat (Z.of_nat (List.length xs) + k)) xs
  else firstn (Z.to_nat k) xs.

(** *** [int(s)]

    Base-10 grammar of [int] on a string: surrounding whitespace is
    dropped, then an optional sign, then digits, where single underscores
    may separate two digits.  Anything else is a [ValueError].  The
    whitespace [int] drops is TAB, LF, VT, FF, CR, SPACE, NEL and NBSP; the
    separators FS, GS, RS and US are not dropped.  (The interpreter's
    limit on the number of digits is not modelled.) *)
Definition is_int_space (c : ascii) : bool :=
  let n := Z.of_nat (nat_of_ascii c) in
  ((9 <=? n) && (n <=? 13)) || (n =? 32) || (n =? 133) || (n =? 160).

Definition digit_of (c : ascii) : option Z :=
  let n := Z.of_nat (nat_of_ascii c) in
  if (48 <=? n) && (n <=? 57) then Some (n - 48) else None.

Fixpoint int_digits (s : string) (acc : Z) (after_underscore : bool)
  : option Z :=
  match s with
  | EmptyString => if after_underscore then None else Some acc
  | String c s' =>
      match digit_of c with
      | Some d => int_digits s' (10 * acc + d) false
      | None =>
          if Ascii.eqb c "_" && negb after_underscore
          then int_digits s' acc true
          else None
      end
  end.

Definition int_unsigned (s : string) : option Z :=
  match s with
  | EmptyString => None
  | String c s' =>
      match digit_of c with
      | Some d => int_digits s' d false
      | None => None
      end
  end.

Definition int_opt (s : string) : option Z :=
  match rstrip is_int_space (lstrip is_int_space s) with
  | String "+" s' => int_unsigned s'
  | String "-" s' => option_map Z.opp (int_unsigned s')
  | s' => int_unsigned s'
  end.

Definition py_int (s : string) : result Z :=
  match int_opt s with
  | Some n => Ok n
  | None => Raise ValueError
  end.

(** [list(map(int, xs))]: the first element that does not parse raises. *)
Fixpoint map_int (xs : list string) : result (list Z) :=
  match xs with
  | [] => Ok []
  | x :: rest =>
      n <- py_int x ;;
      ns <- map_int rest ;;
      Ok (n :: ns)
  end.

(** [sum(vals)] *)
Definition sum (vals : list Z) : Z := fold_left Z.add vals 0.

(** ** The readers

    Each reader takes the content of the file it opens. *)

(** [for line in f: body], threading the variables the body assigns. *)
Fixpoint for_each {S : Type} (body : string -> S -> result S)
  (lines : list string) (s : S) : result S :=
  match lines with
  | [] => Ok s
  | line :: rest =>
      s' <- body line s ;;
      for_each body rest s'
  end.

(** [read_cpu_times]; [first_line] is [f.readline()] of [/proc/stat]. *)
Definition read_cpu_times (first_line : string) : result (Z * Z) :=
  let fields := py_split first_line in
  vals <- map_int (slice fields 1 8) ;;
  idle <- index vals 3 ;;
  let total := sum vals in
  Ok (idle, total).

(** [read_mem_percent]; the two arguments are the first two lines of
    [/proc/meminfo]. *)
Definition read_mem_percent (total_line free_line : string) : result Q :=
  total <- (t <- index (py_split total_line) 1 ;; py_int t) ;;
  free <- (t <- index (py_split free_line) 1 ;; py_int t) ;;
  let used := total - free in
  x <- int_mul_float used 100 ;;
  float_div_int x total.

(** The fields of [os.statvfs(path)] that the monitor reads. *)
Record Statvfs : Type := mkStatvfs {
  f_blocks : Z;
  f_bfree : Z;
  f_frsize : Z
}.

(** [read_disk_usage_percent]; [st] is [os.statvfs(path)]. *)
Definition read_disk_usage_percent (st : Statvfs) : result Q :=
  let used := (f_blocks st - f_bfree st) * f_frsize st in
  let total := f_blocks st * f_frsize st in
  x <- int_mul_float used 100 ;;
  float_div_int x total.

Definition disk_prefixes : list string := ["sd"; "nvme"; "hd"].

(** Body of the loop of [read_disk_io] on one line of [/proc/diskstats]. *)
Definition disk_line (line : string) (acc : Z * Z) : result (Z * Z) :=
  let '(read_sectors, write_sectors) := acc in
  let parts := py_split line in
  name <- index parts 2 ;;
  if startswith name disk_prefixes then
    r <- (p <- index parts 5 ;; py_int p) ;;
    w <- (p <- index parts 9 ;; py_int p) ;;
    Ok (read_sectors + r, write_sectors + w)
  else Ok (read_sectors, write_sectors).

(** [read_disk_io]: the sums of sectors, returned in megabytes. *)
Definition read_disk_io (lines : list string) : result (Q * Q) :=
  '(read_sectors, write_sectors) <- for_each disk_line lines (0, 0) ;;
  rd <- int_truediv (read_sectors * 512) (1024 ^ 2) ;;
  wr <- int_truediv (write_sectors * 512) (1024 ^ 2) ;;
  Ok (rd, wr).

(** Body of the loop of [read_net_dev] on one line of [/proc/net/dev]. *)
Definition net_line (line : string) (acc : Z * Z) : result (Z * Z) :=
  let '(rx, tx) := acc in
  '(iface, data) <- unpack2 (split_colon line "") ;;
  let iface := py_strip iface in
  if String.eqb iface "lo" then Ok (rx, tx)
  else
    vals <- map_int (py_split data) ;;
    v0 <- index vals 0 ;;
    v8 <- index vals 8 ;;
    Ok (rx + v0, tx + v8).

(** [read_net_dev]: two [readline()] calls drop the headers, the loop
    runs over the lines that follow; the sums are returned in kilobytes. *)
Definition read_net_dev (lines : list string) : result (Q * Q) :=
  '(rx, tx) <- for_each net_line (skipn 2 lines) (0, 0) ;;
  rx_kb <- int_truediv rx 1024 ;;
  tx_kb <- int_truediv tx 1024 ;;
  Ok (rx_kb, tx_kb).

(** ** The sampling loop *)

(** What the host shows during one tick. *)
Record Host : Type := mkHost {
  proc_stat : string;
  meminfo_total : string;
  meminfo_free : string;
  statvfs_root : Statvfs;
  diskstats : list string;
  net_dev : list string
}.

(** The values formatted into the status line. *)
Record Metrics : Type := mkMetrics {
  m_cpu_pct : Q;
  m_ram_pct : Q;
  m_disk_pct : Q;
  m_rd_rate : Q;
  m_wr_rate : Q;
  m_rx_rate : Q;
  m_tx_rate : Q
}.

(** Seeding, lines 85-88 of [main]. *)
Definition seed (h : Host) : result Prev :=
  '(idle0, total0) <- read_cpu_times (proc_stat h) ;;
  '(rd0, wr0) <- read_disk_io (diskstats h) ;;
  '(rx0, tx0) <- read_net_dev (net_dev h) ;;
  Ok (mkPrev idle0 total0 rd0 wr0 rx0 tx0).

(** One iteration of [while True], lines 92-114: the metrics of the tick
    and the new value of the global [prev]. *)
Definition tick (prev : Prev) (h : Host) : result (Metrics * Prev) :=
  '(idle1, total1) <- read_cpu_times (proc_stat h) ;;
  cpu <- cpu_pct prev idle1 total1 ;;
  ram_pct <- read_mem_percent (meminfo_total h) (meminfo_free h) ;;
  disk_pct <- read_disk_usage_percent (statvfs_root h) ;;
  '(rd1, wr1) <- read_disk_io (diskstats h) ;;
  let rd_rate := (rd1 - disk_read prev)%Q in
  let wr_rate := (wr1 - disk_write prev)%Q in
  '(rx1, tx1) <- read_net_dev (net_dev h) ;;
  let rx_rate := (rx1 - net_rx prev)%Q in
  let tx_rate := (tx1 - net_tx prev)%Q in
  Ok (mkMetrics cpu ram_pct disk_pct rd_rate wr_rate rx_rate tx_rate,
      mkPrev idle1 total1 rd1 wr1 rx1 tx1).

(** The loop over the successive states of the host: the ticks completed
    before the input ends or an exception leaves the loop, each with the
    snapshot it stored. *)
Fixpoint ticks (prev : Prev) (hosts : list Host) : list (Metrics * Prev) :=
  match hosts with
  | [] => []
  | h :: rest =>
      match tick prev h with
      | Ok (m, prev') => (m, prev') :: ticks prev' rest
      | Raise _ => []
      end
  end.

(** Lines 126-131: [cols] is [os.get_terminal_size().columns], [None]
    when the call raises [OSError]. *)
Definition truncate {A : Type} (dot : A) (line : list A) (cols : option Z)
  : list A :=
  match cols with
  | Some cols =>
      if Z.of_nat (List.length line) >? cols
      then slice_to line (cols - 3) ++ [dot; dot; dot]
      else line
  | None => line
  end.

(** ** Binary64 evaluation of the CPU formula

    The same expression on IEEE doubles, with the operations of the
    specification of binary64 ([prec = 53], [emax = 1024]): every
    operation rounds to nearest, ties to even. *)

(** An int as an unrounded binary float: mantissa [n], exponent 0. *)
Definition sf_of_int (n : Z) : spec_float :=
  match n with
  | Z0 => S754_zero false
  | Zpos p => S754_finite false p 0
  | Zneg p => S754_finite true p 0
  end.

(** [a / b] on two ints: the quotient of the exact ints rounded once;
    [OverflowError] when the rounding is an infinity. *)
Definition b64_truediv (a b : Z) : result spec_float :=
  if b =? 0 then Raise ZeroDivisionError
  else
    match SFdiv 53 1024 (sf_of_int a) (sf_of_int b) with
    | S754_infinity _ => Raise OverflowError
    | q => Ok q
    end.

Definition b64_one : spec_float := binary_normalize 53 1024 1 0 false.
Definition b64_hundred : spec_float := binary_normalize 53 1024 100 0 false.

Definition cpu_pct_b64 (prev : Prev) (idle1 total1 : Z) : result float :=
  let d_idle := idle1 - cpu_idle prev in
  let d_total := total1 - cpu_total prev in
  if negb (d_total =? 0) then
    q <- b64_truediv d_idle d_total ;;
    Ok (SF2Prim (SFmul 53 1024 (SFsub 53 1024 b64_one q) b64_hundred))
  else Ok 0%float.

(** ** Vocabulary of the properties *)

(** Two consecutive snapshots whose counters did not go backward, the idle
    ticks growing no faster than the total ticks. *)
Definition non_decreasing (p c : Prev) : Prop :=
  cpu_idle p <= cpu_idle c /\
  cpu_total p <= cpu_total c /\
  cpu_idle c - cpu_idle p <= cpu_total c - cpu_total p /\
  (disk_read p <= disk_read c)%Q /\
  (disk_write p <= disk_write c)%Q /\
  (net_rx p <= net_rx c)%Q /\
  (net_tx p <= net_tx c)%Q.

Fixpoint non_decreasing_from (p : Prev) (snaps : list Prev) : Prop :=
  match snaps with
  | [] => True
  | c :: rest => non_decreasing p c /\ non_decreasing_from c rest
  end.

Definition rates_nonneg (m : Metrics) : Prop :=
  (0 <= m_cpu_pct m)%Q /\
  (0 <= m_rd_rate m)%Q /\ (0 <= m_wr_rate m)%Q /\
  (0 <= m_rx_rate m)%Q /\ (0 <= m_tx_rate m)%Q.

(** What a line of [/proc/diskstats] holds for the monitor: nothing when
    its device name is not allow-listed, else its read-sector and
    write-sector fields (positions 6 and 10, counted from 1). *)
Inductive disk_row (line : string) : option (Z * Z) -> Prop :=
| disk_row_other (name : string) :
    index (py_split line) 2 = Ok name ->
    startswith name disk_prefixes = false ->
    disk_row line None
| disk_row_disk (name pr pw : string) (r w : Z) :
    index (py_split line) 2 = Ok name ->
    startswith name disk_prefixes = true ->
    index (py_split line) 5 = Ok pr -> py_int pr = Ok r ->
    index (py_split line) 9 = Ok pw -> py_int pw = Ok w ->
    disk_row line (Some (r, w)).

(** What a line of [/proc/net/dev] holds for the monitor: nothing for the
    interface [lo], else its first and ninth numeric fields. *)
Inductive net_row (line : string) : option (Z * Z) -> Prop :=
| net_row_lo (iface data : string) :
    split_colon line "" = [iface; data] ->
    py_strip iface = "lo" ->
    net_row line None
| net_row_iface (iface data : string) (vals : list Z) (rx tx : Z) :
    split_colon line "" = [iface; data] ->
    py_strip iface <> "lo" ->
    map_int (py_split data) = Ok vals ->
    nth_error vals 0 = Some rx ->
    nth_error vals 8 = Some tx ->
    net_row line (Some (rx, tx)).

(** Sums of the first and of the second components of the rows kept. *)
Fixpoint sum_fst (rows : list (option (Z * Z))) : Z :=
  match rows with
  | [] => 0
  | Some (a, _) :: rest => a + sum_fst rest
  | None :: rest => sum_fst rest
  end.

Fixpoint sum_snd (rows : list (option (Z * Z))) : Z :=
  match rows with
  | [] => 0
  | Some (_, b) :: rest => b + sum_snd rest
  | None :: rest => sum_snd rest
  end.



(** Code points of a string of the model. *)
Definition code_points (s : string) : list Z :=
  map (fun c => Z.of_nat (nat_of_ascii c)) (list_ascii_of_string s).

Definition dot : Z := 46.

(** ** Sample host states

    Three states of one machine: at start-up, one second later, and after
    the disk [sdb] and the interface [wlan0] went away. *)
Definition net_header_1 : string :=
  "Inter-|   Receive                                                |  Transmit".
Definition net_header_2 : string :=
  " face |bytes    packets errs drop fifo frame compressed multicast|bytes    packets errs drop fifo colls carrier compressed".

Definition host_a : Host :=
  mkHost
    "cpu  600 100 300 1000 2000 500 500 0 0 0"
    "MemTotal:        8000000 kB"
    "MemFree:         2000000 kB"
    (mkStatvfs 1000 250 4096)
    [ "   7       0 loop0 50 0 400 10 0 0 0 0 0 10 10";
      "   8       0 sda 1200 30 100 500 800 40 300 900 0 700 1400";
      "   8      16 sdb 900 10 2000 400 100 5 64 200 0 300 600" ]
    [ net_header_1; net_header_2;
      "    lo:    4096      10    0    0    0     0          0         0     4096      10    0    0    0     0       0          0";
      "  eth0:    2048      20    0    0    0     0          0         0     1024      15    0    0    0     0       0          0";
      " wlan0:    1024       5    0    0    0     0          0         0      512       4    0    0    0     0       0          0" ].

Definition host_b : Host :=
  mkHost
    "cpu  800 100 500 1200 2100 550 550 7 0 0"
    "MemTotal:        8000000 kB"
    "MemFree:         1000000 kB"
    (mkStatvfs 1000 250 4096)
    [ "   7       0 loop0 90 0 900 10 0 0 0 0 0 10 10";
      "   8       0 sda 1300 30 2148 500 800 40 300 900 0 700 1400";
      "   8      16 sdb 900 10 2000 400 130 5 4160 200 0 300 600" ]
    [ net_header_1; net_header_2;
      "    lo:    8192      20    0    0    0     0          0         0     8192      20    0    0    0     0       0          0";
      "  eth0:    4096      30    0    0    0     0          0         0     1024      15    0    0    0     0       0          0";
      " wlan0:    1024       5    0    0    0     0          0         0     2560       9    0    0    0     0       0          0" ].

Definition host_c : Host :=
  mkHost
    "cpu  900 100 600 1300 2100 600 600 7 0 0"
    "MemTotal:        8000000 kB"
    "MemFree:         1000000 kB"
    (mkStatvfs 1000 250 4096)
    [ "   7       0 loop0 90 0 900 10 0 0 0 0 0 10 10";
      "   8       0 sda 1300 30 148 500 800 40 310 900 0 700 1400" ]
    [ net_header_1; net_header_2;
      "    lo:    8192      20    0    0    0     0          0         0     8192      20    0    0    0     0       0          0";
      "  eth0:    4096      30    0    0    0     0          0         0     1024      15    0    0    0     0       0          0" ].

(** The snapshot seeded from [host_a]. *)
Definition prev_a : Prev :=
  mkPrev 1000 5000 (1075200 # 1048576) (186368 # 1048576)
         (3072 # 1024) (1536 # 1024).

(** [host_b] with a cut-off partition line in the disk statistics. *)
Definition host_d : Host :=
  mkHost
    (proc_stat host_b) (meminfo_total host_b) (meminfo_free host_b)
    (statvfs_root host_b)
    [ "   8       0 sda 1300 30 2148 500 800 40 300 900 0 700 1400";
      "   8       1 sda1 5 6";
      "   8      16 sdb 900 10 2000 400 130 5 4160 200 0 300 600" ]
    (net_dev host_b).


(** The status line of the tick from [prev_a] on [host_b], as code
    points; the arrows are U+2191 and U+2193. *)
Definition status_line_b : list Z :=
  code_points "CPU: 75.0% RAM: 87.5% DISK: 75.0% I/O R: 1.00MB/s W: 2.00MB/s NET "
  ++ [8593] ++ code_points "  2.00KB/s " ++ [8595] ++ code_points "  2.00KB/s".

From Stdlib Require Import Permutation.

(** The snapshot held after a run of the loop that started from [prev]. *)
Definition final_prev (prev : Prev) (outs : list (Metrics * Prev)) : Prev :=
  last (map snd outs) prev.

(** A field of 401 digits, the number [10^400]: too large for a double. *)
Fixpoint zeros (n : nat) : string :=
  match n with
  | O => EmptyString
  | S n' => String "0" (zeros n')
  end.

Definition huge_field : string := String "1" (zeros 400).

(** The two exceptions of a parsing step. *)
Definition parse_exn (e : exn) : Prop := e = IndexError \/ e = ValueError.

(** * Properties *)

(** ** The Python primitives on small inputs *)

Example py_split_ex :
  py_split "   8       0 sda 1 2	3
" = ["8"; "0"; "sda"; "1"; "2"; "3"].
Proof. reflexivity. Qed.

Example py_int_ex :
  map py_int ["42"; "-7"; "+1_000"; "007"; " 12 "; "-0";
              "1__0"; "_1"; "1_"; ""; "0x1f"; "-"; "+-1"; "1 2"; "n/a"]
  = [Ok 42; Ok (-7); Ok 1000; Ok 7; Ok 12; Ok 0;
     Raise ValueError; Raise ValueError; Raise ValueError; Raise ValueError;
     Raise ValueError; Raise ValueError; Raise ValueError; Raise ValueError;
     Raise ValueError].
Proof. reflexivity. Qed.

Example py_int_separators_ex :
  (py_int (String (ascii_of_nat 28) "1"), py_int (String (ascii_of_nat 160) "1"),
   py_strip (String (ascii_of_nat 28) "lo "))
  = (Raise ValueError, Ok 1, "lo").
Proof. reflexivity. Qed.

Example split_colon_ex :
  (split_colon "  eth0: 1 2" "", split_colon "lo:1: 5" "", split_colon "junk" "")
  = (["  eth0"; " 1 2"], ["lo"; "1: 5"], ["junk"]).
Proof. reflexivity. Qed.

Example slice_to_ex :
  (slice_to [1;2;3;4;5;6] 2, slice_to [1;2;3;4;5;6] (-1),
   slice_to [1;2;3;4;5;6] (-9), slice_to [1;2;3] 7)
  = ([1;2], [1;2;3;4;5], [], [1;2;3]).
Proof. reflexivity. Qed.

(** ** Float arithmetic *)

Lemma dbl_overflow_pos : 0 < dbl_overflow.
Proof. vm_compute. reflexivity. Qed.

Lemma dbl_overflow_above_exact : 2 ^ 53 < dbl_overflow.
Proof. vm_compute. reflexivity. Qed.

Lemma float_of_int_ok (n : Z) :
  Z.abs n < dbl_overflow -> float_of_int n = Ok (inject_Z n).
Proof.
  intros H. unfold float_of_int.
  destruct (dbl_overflow <=? Z.abs n) eqn:E; [| reflexivity].
  apply Z.leb_le in E. lia.
Qed.

Lemma float_of_int_overflow (n : Z) :
  dbl_overflow <= Z.abs n -> float_of_int n = Raise OverflowError.
Proof.
  intros H. unfold float_of_int.
  destruct (dbl_overflow <=? Z.abs n) eqn:E; [reflexivity |].
  apply Z.leb_gt in E. lia.
Qed.

Lemma int_truediv_ok (a b : Z) :
  b <> 0 -> Z.abs a < dbl_overflow * Z.abs b ->
  int_truediv a b = Ok (inject_Z a / inject_Z b)%Q.
Proof.
  intros Hb Hfit. unfold int_truediv.
  destruct (b =? 0) eqn:E; [apply Z.eqb_eq in E; contradiction |].
  destruct (dbl_overflow * Z.abs b <=? Z.abs a) eqn:F; [| reflexivity].
  apply Z.leb_le in F. lia.
Qed.

Lemma int_truediv_overflow (a b : Z) :
  b <> 0 -> dbl_overflow * Z.abs b <= Z.abs a ->
  int_truediv a b = Raise OverflowError.
Proof.
  intros Hb Hbig. unfold int_truediv.
  destruct (b =? 0) eqn:E; [apply Z.eqb_eq in E; contradiction |].
  destruct (dbl_overflow * Z.abs b <=? Z.abs a) eqn:F; [reflexivity |].
  apply Z.leb_gt in F. lia.
Qed.

Lemma int_truediv_inv (a b : Z) (q : Q) :
  int_truediv a b = Ok q ->
  b <> 0 /\ Z.abs a < dbl_overflow * Z.abs b /\
  q = (inject_Z a / inject_Z b)%Q.
Proof.
  unfold int_truediv.
  destruct (b =? 0) eqn:E; [discriminate |].
  destruct (dbl_overflow * Z.abs b <=? Z.abs a) eqn:F; [discriminate |].
  apply Z.eqb_neq in E. apply Z.leb_gt in F.
  intros [= <-]. repeat split; assumption.
Qed.

Lemma int_truediv_exn (a b : Z) (e : exn) :
  int_truediv a b = Raise e ->
  (b = 0 /\ e = ZeroDivisionError) \/ (b <> 0 /\ e = OverflowError).
Proof.
  unfold int_truediv.
  destruct (b =? 0) eqn:E.
  - apply Z.eqb_eq in E. intros [= <-]. left. split; [exact E | reflexivity].
  - apply Z.eqb_neq in E.
    destruct (dbl_overflow * Z.abs b <=? Z.abs a); [| discriminate].
    intros [= <-]. right. split; [exact E | reflexivity].
Qed.

(** The thresholds of the two exceptions, and the binary64 evaluation of
    the CPU formula at an idle counter that went backward. *)
Example float_overflow_thresholds :
  float_of_int (dbl_overflow - 1) = Ok (inject_Z (dbl_overflow - 1)) /\
  float_of_int dbl_overflow = Raise OverflowError /\
  succeeds (int_truediv (3 * dbl_overflow - 1) (-3)) /\
  int_truediv (3 * dbl_overflow) (-3) = Raise OverflowError /\
  int_truediv (10 ^ 400) 0 = Raise ZeroDivisionError /\
  float_div_int 5 (10 ^ 400) = Raise OverflowError.
Proof.
  repeat apply conj; vm_compute; reflexivity || exact I.
Qed.

Example cpu_pct_b64_backward_idle :
  cpu_pct_b64 (mkPrev 5 7 0 0 0 0) 0 14 = Ok 171.42857142857144%float /\
  cpu_pct_b64 (mkPrev 1 0 0 0 0 0) 0 (2 ^ 54) = Ok 100%float /\
  cpu_pct_b64 (mkPrev (1 - 10 ^ 400) 0 0 0 0 0) 1 1 = Raise OverflowError /\
  cpu_pct (mkPrev (1 - 10 ^ 400) 0 0 0 0 0) 1 1 = Raise OverflowError.
Proof.
  repeat apply conj; vm_compute; reflexivity.
Qed.

(** ** CPU utilisation *)

Lemma cpu_pct_zero (prev : Prev) (idle1 total1 : Z) :
  total1 - cpu_total prev = 0 -> cpu_pct prev idle1 total1 = Ok 0%Q.
Proof. intros E. unfold cpu_pct. rewrite E. reflexivity. Qed.

Lemma cpu_pct_nonzero (prev : Prev) (idle1 total1 : Z) :
  total1 - cpu_total prev <> 0 ->
  cpu_pct prev idle1 total1
  = (q <- int_truediv (idle1 - cpu_idle prev) (total1 - cpu_total prev) ;;
     Ok ((1 - q) * 100)%Q).
Proof.
  intros E. unfold cpu_pct. apply Z.eqb_neq in E. rewrite E. reflexivity.
Qed.

(** The only exception of the CPU formula is the [OverflowError] of its
    division. *)
Lemma cpu_pct_exn (prev : Prev) (idle1 total1 : Z) (e : exn) :
  cpu_pct prev idle1 total1 = Raise e -> e = OverflowError.
Proof.
  destruct (Z.eq_dec (total1 - cpu_total prev) 0) as [E | E].
  - rewrite (cpu_pct_zero _ _ _ E). discriminate.
  - rewrite (cpu_pct_nonzero _ _ _ E).
    destruct (int_truediv _ _) as [q | e'] eqn:D; cbn [bind]; [discriminate |].
    intros [= <-].
    destruct (int_truediv_exn _ _ _ D) as [[Hz _] | [_ He]];
      [contradiction | exact He].
Qed.

(** C1. When the total-ticks delta is zero the CPU percentage is exactly 0,
    and for every pair of snapshots the division is never reached with a
    zero divisor: the computation never raises [ZeroDivisionError]. *)
Theorem cpu_pct_zero_delta :
  forall (prev : Prev) (idle1 total1 : Z),
    (total1 - cpu_total prev = 0 -> cpu_pct prev idle1 total1 = Ok 0%Q) /\
    cpu_pct prev idle1 total1 <> Raise ZeroDivisionError.
Proof.
  intros prev idle1 total1. split.
  - apply cpu_pct_zero.
  - intros H. apply cpu_pct_exn in H. discriminate H.
Qed.

Lemma cpu_pct_zero_delta_witness :
  cpu_pct (mkPrev 1000 5000 0 0 0 0) 1234 5000 = Ok 0%Q.
Proof.
  apply (cpu_pct_zero_delta (mkPrev 1000 5000 0 0 0 0) 1234 5000).
  reflexivity.
Defined.

(** ** Inversion of a tick *)

Lemma bind_ok (A B : Type) (r : result A) (k : A -> result B) (b : B) :
  bind r k = Ok b -> exists a, r = Ok a /\ k a = Ok b.
Proof.
  destruct r as [a | e]; cbn; intros H; [eauto | discriminate].
Qed.

Lemma bind_raises (A B : Type) (r : result A) (k : A -> result B) :
  raises r -> raises (bind r k).
Proof.
  destruct r; cbn; tauto.
Qed.

Tactic Notation "bind_inv" hyp(H) "as" simple_intropattern(pat) ident(E) :=
  apply bind_ok in H; destruct H as (pat & E & H).

(** A completed tick stored exactly what the readers returned, and its
    rates are the plain differences with the previous snapshot. *)
Lemma tick_inv (prev : Prev) (h : Host) (m : Metrics) (prev' : Prev) :
  tick prev h = Ok (m, prev') ->
  read_cpu_times (proc_stat h) = Ok (cpu_idle prev', cpu_total prev') /\
  cpu_pct prev (cpu_idle prev') (cpu_total prev') = Ok (m_cpu_pct m) /\
  read_disk_io (diskstats h) = Ok (disk_read prev', disk_write prev') /\
  read_net_dev (net_dev h) = Ok (net_rx prev', net_tx prev') /\
  m_rd_rate m = (disk_read prev' - disk_read prev)%Q /\
  m_wr_rate m = (disk_write prev' - disk_write prev)%Q /\
  m_rx_rate m = (net_rx prev' - net_rx prev)%Q /\
  m_tx_rate m = (net_tx prev' - net_tx prev)%Q.
Proof.
  unfold tick. intros H.
  bind_inv H as [idle1 total1] Ecpu.
  bind_inv H as cpu Epct.
  bind_inv H as ram Eram.
  bind_inv H as dsk Edsk.
  bind_inv H as [rd1 wr1] Eio.
  bind_inv H as [rx1 tx1] Enet.
  injection H as <- <-. cbn. repeat split; assumption.
Qed.

(** C7. From the snapshot (idle=1000, total=5000) to (idle=1200,
    total=5800) the CPU utilisation is exactly 75.0 percent, in exact
    arithmetic and on IEEE doubles alike; the other fields of the previous
    snapshot play no part. *)
Theorem cpu_pct_fixed_snapshots :
  forall rd wr rx tx : Q,
    returns_q (cpu_pct (mkPrev 1000 5000 rd wr rx tx) 1200 5800) 75 /\
    cpu_pct_b64 (mkPrev 1000 5000 rd wr rx tx) 1200 5800 = Ok 75%float.
Proof.
  intros rd wr rx tx. split.
  - vm_compute. reflexivity.
  - vm_compute. reflexivity.
Qed.

(** ** Gauges *)

Lemma float_div_int_zero (x : Q) :
  float_div_int x 0 = Raise ZeroDivisionError.
Proof.
  unfold float_div_int. rewrite float_of_int_ok by exact dbl_overflow_pos.
  reflexivity.
Qed.

Lemma float_div_int_nonzero (x : Q) (b : Z) :
  b <> 0 -> Z.abs b < dbl_overflow ->
  float_div_int x b = Ok (x / inject_Z b)%Q.
Proof.
  intros Hb Hfit. unfold float_div_int.
  rewrite (float_of_int_ok _ Hfit). cbn [bind].
  destruct (b =? 0) eqn:E; [apply Z.eqb_eq in E; contradiction | reflexivity].
Qed.

Lemma read_mem_percent_parsed (total_line free_line t f : string)
  (total free : Z) :
  index (py_split total_line) 1 = Ok t -> py_int t = Ok total ->
  index (py_split free_line) 1 = Ok f -> py_int f = Ok free ->
  read_mem_percent total_line free_line
  = (x <- int_mul_float (total - free) 100 ;; float_div_int x total).
Proof.
  intros Ht Htotal Hf Hfree. unfold read_mem_percent.
  rewrite Ht. cbn [bind]. rewrite Htotal. cbn [bind].
  rewrite Hf. cbn [bind]. rewrite Hfree. reflexivity.
Qed.

(** With a total of zero: [ZeroDivisionError], unless the used amount
    does not fit a double, in which case its conversion fails first. *)
Lemma percent_zero_total (used : Z) :
  (Z.abs used < dbl_overflow ->
     (x <- int_mul_float used 100 ;; float_div_int x 0)
     = Raise ZeroDivisionError) /\
  (dbl_overflow <= Z.abs used ->
     (x <- int_mul_float used 100 ;; float_div_int x 0)
     = Raise OverflowError).
Proof.
  unfold int_mul_float. split; intros H.
  - rewrite (float_of_int_ok _ H). cbn [bind]. apply float_div_int_zero.
  - rewrite (float_of_int_overflow _ H). reflexivity.
Qed.

(** C2. Memory total 0 and a file system of 0 blocks: both gauges raise
    [ZeroDivisionError]; neither returns 0%. *)
Lemma gauges_zero_total_raise :
  read_mem_percent "MemTotal:              0 kB" "MemFree:               0 kB"
    = Raise ZeroDivisionError /\
  read_disk_usage_percent (mkStatvfs 0 0 4096) = Raise ZeroDivisionError /\
  ~ returns_q
      (read_mem_percent "MemTotal:              0 kB"
                        "MemFree:               0 kB") 0 /\
  ~ returns_q (read_disk_usage_percent (mkStatvfs 0 0 4096)) 0.
Proof.
  repeat split; try (vm_compute; reflexivity); vm_compute; tauto.
Qed.

(** C2, amended. For every input where the reported total is zero the
    gauges fail: the division by the total is not guarded.  Each raises
    [ZeroDivisionError]; only when the used amount is too large to be
    converted to a float does [OverflowError] come first. *)
Theorem gauges_at_zero_total :
  forall (total_line free_line t f : string) (total free : Z) (st : Statvfs),
    index (py_split total_line) 1 = Ok t -> py_int t = Ok total ->
    index (py_split free_line) 1 = Ok f -> py_int f = Ok free ->
    (total = 0 -> Z.abs free < dbl_overflow ->
       read_mem_percent total_line free_line = Raise ZeroDivisionError) /\
    (total = 0 -> dbl_overflow <= Z.abs free ->
       read_mem_percent total_line free_line = Raise OverflowError) /\
    (f_blocks st * f_frsize st = 0 ->
     Z.abs ((f_blocks st - f_bfree st) * f_frsize st) < dbl_overflow ->
       read_disk_usage_percent st = Raise ZeroDivisionError) /\
    (f_blocks st * f_frsize st = 0 ->
     dbl_overflow <= Z.abs ((f_blocks st - f_bfree st) * f_frsize st) ->
       read_disk_usage_percent st = Raise OverflowError).
Proof.
  intros total_line free_line t f total free st Ht Htotal Hf Hfree.
  rewrite (read_mem_percent_parsed _ _ _ _ _ _ Ht Htotal Hf Hfree).
  unfold read_disk_usage_percent.
  split; [| split; [| split]].
  - intros -> Hfit. apply percent_zero_total. lia.
  - intros -> Hbig. apply percent_zero_total. lia.
  - intros -> Hfit. apply percent_zero_total. exact Hfit.
  - intros -> Hbig. apply percent_zero_total. exact Hbig.
Qed.

Lemma gauges_at_zero_total_witness :
  read_mem_percent "MemTotal:        0 kB" "MemFree:         5 kB"
    = Raise ZeroDivisionError /\
  read_mem_percent "MemTotal:        0 kB" (String.append "MemFree: " huge_field)
    = Raise OverflowError /\
  read_disk_usage_percent (mkStatvfs 0 7 4096) = Raise ZeroDivisionError /\
  read_disk_usage_percent (mkStatvfs 0 (10 ^ 400) 4096) = Raise OverflowError.
Proof.
  split; [| split; [| split]].
  - destruct (gauges_at_zero_total
                "MemTotal:        0 kB" "MemFree:         5 kB"
                "0" "5" 0 5 (mkStatvfs 0 7 4096)) as (H & _);
      [reflexivity | reflexivity | reflexivity | reflexivity |].
    apply H; [reflexivity | vm_compute; reflexivity].
  - destruct (gauges_at_zero_total
                "MemTotal:        0 kB" (String.append "MemFree: " huge_field)
                "0" huge_field 0 (10 ^ 400) (mkStatvfs 0 7 4096))
      as (_ & H & _);
      [reflexivity | reflexivity | vm_compute; reflexivity
      | vm_compute; reflexivity |].
    apply H; [reflexivity | vm_compute; discriminate].
  - destruct (gauges_at_zero_total
                "MemTotal:        0 kB" "MemFree:         5 kB"
                "0" "5" 0 5 (mkStatvfs 0 7 4096)) as (_ & _ & H & _);
      [reflexivity | reflexivity | reflexivity | reflexivity |].
    apply H; [reflexivity | vm_compute; reflexivity].
  - destruct (gauges_at_zero_total
                "MemTotal:        0 kB" "MemFree:         5 kB"
                "0" "5" 0 5 (mkStatvfs 0 (10 ^ 400) 4096))
      as (_ & _ & _ & H);
      [reflexivity | reflexivity | reflexivity | reflexivity |].
    apply H; [reflexivity | vm_compute; discriminate].
Defined.

(** ** Rates *)

Lemma inject_Z_pos (z : Z) : 0 < z -> (0 < inject_Z z)%Q.
Proof. intros H. rewrite <- (Zlt_Qlt 0). exact H. Qed.

(** What the CPU formula returns, when it returns. *)
Lemma cpu_pct_value (prev : Prev) (idle1 total1 : Z) (q : Q) :
  cpu_pct prev idle1 total1 = Ok q ->
  (total1 - cpu_total prev = 0 /\ q = 0%Q) \/
  (total1 - cpu_total prev <> 0 /\
   q = ((1 - inject_Z (idle1 - cpu_idle prev)
            / inject_Z (total1 - cpu_total prev)) * 100)%Q).
Proof.
  destruct (Z.eq_dec (total1 - cpu_total prev) 0) as [E | E].
  - rewrite (cpu_pct_zero _ _ _ E). intros [= <-]. left. split; [exact E | reflexivity].
  - rewrite (cpu_pct_nonzero _ _ _ E). intros H. bind_inv H as x Ex.
    destruct (int_truediv_inv _ _ _ Ex) as (_ & _ & ->).
    injection H as <-. right. split; [exact E | reflexivity].
Qed.

Lemma cpu_pct_nonneg (prev : Prev) (idle1 total1 : Z) (q : Q) :
  cpu_idle prev <= idle1 ->
  idle1 - cpu_idle prev <= total1 - cpu_total prev ->
  cpu_pct prev idle1 total1 = Ok q ->
  (0 <= q)%Q.
Proof.
  intros Hidle Hslow Hq.
  destruct (cpu_pct_value _ _ _ _ Hq) as [[_ ->] | [E ->]].
  - apply Qle_refl.
  - assert (Hpos : (0 < inject_Z (total1 - cpu_total prev))%Q)
      by (apply inject_Z_pos; lia).
    assert (Hle : (inject_Z (idle1 - cpu_idle prev)
                   / inject_Z (total1 - cpu_total prev) <= 1)%Q).
    { apply Qle_shift_div_r; [exact Hpos |].
      rewrite Qmult_1_l. rewrite <- Zle_Qle. exact Hslow. }
    lra.
Qed.

Lemma rate_nonneg (p c : Q) : (p <= c)%Q -> (0 <= c - p)%Q.
Proof. intros H. lra. Qed.

Lemma tick_rates_nonneg (prev : Prev) (h : Host) (m : Metrics) (prev' : Prev) :
  tick prev h = Ok (m, prev') ->
  non_decreasing prev prev' ->
  rates_nonneg m.
Proof.
  intros Htick (Hidle & _ & Hslow & Hrd & Hwr & Hrx & Htx).
  destruct (tick_inv _ _ _ _ Htick)
    as (_ & Hcpu & _ & _ & Erd & Ewr & Erx & Etx).
  unfold rates_nonneg. rewrite Erd, Ewr, Erx, Etx.
  repeat split; try (apply rate_nonneg; assumption).
  exact (cpu_pct_nonneg _ _ _ _ Hidle Hslow Hcpu).
Qed.

(** C3. Along any run of the loop whose successive snapshots never go
    backward (idle ticks growing no faster than total ticks), the CPU
    percentage and the disk and network rates of every tick are
    non-negative. *)
Theorem monotone_counters_nonneg_rates :
  forall (prev : Prev) (hosts : list Host),
    non_decreasing_from prev (map snd (ticks prev hosts)) ->
    Forall (fun out => rates_nonneg (fst out)) (ticks prev hosts).
Proof.
  intros prev hosts. revert prev.
  induction hosts as [| h rest IH]; intros prev Hmono; cbn in *.
  - constructor.
  - destruct (tick prev h) as [[m prev'] | e] eqn:Htick; cbn in *.
    + destruct Hmono as [Hstep Hrest]. constructor.
      * exact (tick_rates_nonneg _ _ _ _ Htick Hstep).
      * apply IH. exact Hrest.
    + constructor.
Qed.

Example seed_host_a : seed host_a = Ok prev_a.
Proof. vm_compute. reflexivity. Qed.

Lemma monotone_counters_nonneg_rates_witness :
  Forall (fun out => rates_nonneg (fst out)) (ticks prev_a [host_a; host_b]).
Proof.
  apply (monotone_counters_nonneg_rates prev_a [host_a; host_b]).
  vm_compute. repeat split; try (intros H; discriminate H).
Defined.




(** ** The disk-I/O parser *)

Lemma index_some (A : Type) (xs : list A) (i : nat) (x : A) :
  nth_error xs i = Some x -> index xs i = Ok x.
Proof. unfold index. intros ->. reflexivity. Qed.

Lemma index_short (A : Type) (xs : list A) (i : nat) :
  (List.length xs <= i)%nat -> index xs i = Raise IndexError.
Proof.
  intros H. unfold index.
  destruct (nth_error xs i) eqn:E; [| reflexivity].
  apply nth_error_None in H. congruence.
Qed.

Lemma disk_line_row (line : string) (row : option (Z * Z)) (rs ws : Z) :
  disk_row line row ->
  disk_line line (rs, ws)
  = Ok (match row with
        | Some (r, w) => (rs + r, ws + w)
        | None => (rs, ws)
        end).
Proof.
  intros [name Hname Hpre | name pr pw r w Hname Hpre Hpr Hr Hpw Hw];
    unfold disk_line; rewrite Hname; cbn [bind]; rewrite Hpre.
  - reflexivity.
  - rewrite Hpr. cbn [bind]. rewrite Hr. cbn [bind].
    rewrite Hpw. cbn [bind]. rewrite Hw.
    reflexivity.
Qed.

Lemma for_each_disk_rows (lines : list string) (rows : list (option (Z * Z))) :
  Forall2 disk_row lines rows ->
  forall rs ws : Z,
    for_each disk_line lines (rs, ws)
    = Ok (rs + sum_fst rows, ws + sum_snd rows).
Proof.
  induction 1 as [| line row lines rows Hrow _ IH]; intros rs ws.
  - cbn. rewrite !Z.add_0_r. reflexivity.
  - cbn [for_each]. rewrite (disk_line_row _ _ rs ws Hrow). cbn [bind].
    destruct row as [[r w] |]; rewrite IH; cbn [sum_fst sum_snd];
      [| reflexivity].
    rewrite !Z.add_assoc. reflexivity.
Qed.

(** C5. On a [loop0] line and two [sd*] lines with read-sectors 100 and
    2000 the returned read value is 2100*512/1048576 (megabytes); it is
    not the byte count 2100*512. *)
Lemma read_disk_io_is_not_bytes :
  exists rd wr : Q,
    read_disk_io
      [ "   7       0 loop0 50 0 400 10 0 0 0 0 0 10 10";
        "   8       0 sda 1200 30 100 500 800 40 300 900 0 700 1400";
        "   8      16 sdb 900 10 2000 400 100 5 64 200 0 300 600" ]
    = Ok (rd, wr) /\
    (rd == 2100 * 512 / 1048576)%Q /\
    ~ (rd == 2100 * 512)%Q.
Proof.
  do 2 eexists. split; [vm_compute; reflexivity |].
  split; [reflexivity |]. intros H. vm_compute in H. discriminate H.
Qed.

Lemma read_disk_io_rows (lines : list string)
  (rows : list (option (Z * Z))) :
  Forall2 disk_row lines rows ->
  read_disk_io lines
  = (rd <- int_truediv (sum_fst rows * 512) (1024 ^ 2) ;;
     wr <- int_truediv (sum_snd rows * 512) (1024 ^ 2) ;;
     Ok (rd, wr)).
Proof.
  intros Hrows. unfold read_disk_io.
  rewrite (for_each_disk_rows _ _ Hrows 0 0). reflexivity.
Qed.

Lemma pair_truediv_overflow (a b c : Z) :
  c <> 0 ->
  dbl_overflow * Z.abs c <= Z.abs a \/ dbl_overflow * Z.abs c <= Z.abs b ->
  (x <- int_truediv a c ;; y <- int_truediv b c ;; Ok (x, y))
  = Raise OverflowError.
Proof.
  intros Hc Hbig.
  destruct (int_truediv a c) as [x | e] eqn:Ea; cbn [bind].
  - destruct (int_truediv_inv _ _ _ Ea) as (_ & Hfit & _).
    destruct Hbig as [Hbig | Hbig]; [lia |].
    rewrite (int_truediv_overflow _ _ Hc Hbig). reflexivity.
  - destruct (int_truediv_exn _ _ _ Ea) as [[Hz _] | [_ ->]];
      [contradiction | reflexivity].
Qed.

(** C5, amended. [read_disk_io] accumulates the read-sector and
    write-sector fields over exactly the lines whose device name starts
    with an allow-listed prefix, and returns each sum converted at 512
    bytes per sector to megabytes, not to bytes: the two values returned
    are the float quotients (sum * 512) / 1024^2.  Up to 2^53 bytes the
    quotient is exactly sectors * 512 / 1024^2 (2100*512/1048576 for
    read-sectors 100 and 2000); a quotient too large for a double raises
    [OverflowError]. *)
Theorem read_disk_io_megabytes :
  forall (lines : list string) (rows : list (option (Z * Z))),
    Forall2 disk_row lines rows ->
    read_disk_io lines
    = (rd <- int_truediv (sum_fst rows * 512) (1024 ^ 2) ;;
       wr <- int_truediv (sum_snd rows * 512) (1024 ^ 2) ;;
       Ok (rd, wr)) /\
    (Z.abs (sum_fst rows * 512) <= 2 ^ 53 ->
     Z.abs (sum_snd rows * 512) <= 2 ^ 53 ->
       read_disk_io lines
       = Ok ((inject_Z (sum_fst rows * 512) / inject_Z (1024 ^ 2))%Q,
             (inject_Z (sum_snd rows * 512) / inject_Z (1024 ^ 2))%Q)) /\
    (dbl_overflow * 1024 ^ 2 <= Z.abs (sum_fst rows * 512) \/
     dbl_overflow * 1024 ^ 2 <= Z.abs (sum_snd rows * 512) ->
       read_disk_io lines = Raise OverflowError).
Proof.
  intros lines rows Hrows. rewrite (read_disk_io_rows _ _ Hrows).
  pose proof dbl_overflow_above_exact as Hexact.
  split; [reflexivity | split].
  - intros Hr Hw.
    rewrite !int_truediv_ok by (change (Z.abs (1024 ^ 2)) with 1048576; lia).
    reflexivity.
  - intros Hbig. apply pair_truediv_overflow; [discriminate | exact Hbig].
Qed.

Lemma read_disk_io_megabytes_witness :
  read_disk_io (diskstats host_a)
  = Ok ((inject_Z (2100 * 512) / inject_Z (1024 ^ 2))%Q,
        (inject_Z (364 * 512) / inject_Z (1024 ^ 2))%Q) /\
  read_disk_io
    [String.append "   8       0 sda 1200 30 "
       (String.append huge_field " 500 800 40 300 900 0 700 1400")]
  = Raise OverflowError.
Proof.
  split.
  - destruct (read_disk_io_megabytes (diskstats host_a)
                [None; Some (100, 300); Some (2000, 64)]) as (_ & Hexact & _).
    + repeat constructor.
      * apply (disk_row_other _ "loop0"); reflexivity.
      * apply (disk_row_disk _ "sda" "100" "300"); reflexivity.
      * apply (disk_row_disk _ "sdb" "2000" "64"); reflexivity.
    + apply Hexact; vm_compute; discriminate.
  - destruct (read_disk_io_megabytes
                [String.append "   8       0 sda 1200 30 "
                   (String.append huge_field " 500 800 40 300 900 0 700 1400")]
                [Some (10 ^ 400, 300)]) as (_ & _ & Hover).
    + repeat constructor.
      apply (disk_row_disk _ "sda" huge_field "300");
        vm_compute; reflexivity.
    + apply Hover. left. vm_compute. discriminate.
Defined.

(** ** The network parser *)

Lemma net_line_row (line : string) (row : option (Z * Z)) (rx tx : Z) :
  net_row line row ->
  net_line line (rx, tx)
  = Ok (match row with
        | Some (r, t) => (rx + r, tx + t)
        | None => (rx, tx)
        end).
Proof.
  intros [iface data Hsplit Hlo
         | iface data vals r t Hsplit Hlo Hvals Hr Ht];
    unfold net_line; rewrite Hsplit; cbn [unpack2 bind].
  - rewrite Hlo. reflexivity.
  - apply String.eqb_neq in Hlo. rewrite Hlo, Hvals. cbn [bind].
    rewrite (index_some _ _ _ _ Hr). cbn [bind].
    rewrite (index_some _ _ _ _ Ht). reflexivity.
Qed.

Lemma for_each_net_rows (lines : list string) (rows : list (option (Z * Z))) :
  Forall2 net_row lines rows ->
  forall rx tx : Z,
    for_each net_line lines (rx, tx)
    = Ok (rx + sum_fst rows, tx + sum_snd rows).
Proof.
  induction 1 as [| line row lines rows Hrow _ IH]; intros rx tx.
  - cbn. rewrite !Z.add_0_r. reflexivity.
  - cbn [for_each]. rewrite (net_line_row _ _ rx tx Hrow). cbn [bind].
    destruct row as [[r t] |]; rewrite IH; cbn [sum_fst sum_snd];
      [| reflexivity].
    rewrite !Z.add_assoc. reflexivity.
Qed.

Lemma read_net_dev_rows (header1 header2 : string) (body : list string)
  (rows : list (option (Z * Z))) :
  Forall2 net_row body rows ->
  read_net_dev (header1 :: header2 :: body)
  = (rx_kb <- int_truediv (sum_fst rows) 1024 ;;
     tx_kb <- int_truediv (sum_snd rows) 1024 ;;
     Ok (rx_kb, tx_kb)).
Proof.
  intros Hrows. unfold read_net_dev. cbn [skipn].
  rewrite (for_each_net_rows _ _ Hrows 0 0). reflexivity.
Qed.

(** C9. Whatever the first two lines are, [read_net_dev] does not read
    them; a line of interface [lo] adds nothing to either sum, whatever
    its fields; every other interface line adds its first numeric field to
    rx and its ninth to tx.  What is returned is computed from these two
    sums alone, each divided by 1024: exactly sum / 1024 up to 2^53
    bytes. *)
Theorem read_net_dev_sums :
  forall (header1 header2 : string) (body : list string)
         (rows : list (option (Z * Z))),
    Forall2 net_row body rows ->
    for_each net_line (skipn 2 (header1 :: header2 :: body)) (0, 0)
    = Ok (sum_fst rows, sum_snd rows) /\
    read_net_dev (header1 :: header2 :: body)
    = (rx_kb <- int_truediv (sum_fst rows) 1024 ;;
       tx_kb <- int_truediv (sum_snd rows) 1024 ;;
       Ok (rx_kb, tx_kb)) /\
    (Z.abs (sum_fst rows) <= 2 ^ 53 -> Z.abs (sum_snd rows) <= 2 ^ 53 ->
       read_net_dev (header1 :: header2 :: body)
       = Ok ((inject_Z (sum_fst rows) / inject_Z 1024)%Q,
             (inject_Z (sum_snd rows) / inject_Z 1024)%Q)).
Proof.
  intros header1 header2 body rows Hrows.
  rewrite (read_net_dev_rows _ _ _ _ Hrows).
  pose proof dbl_overflow_above_exact as Hexact.
  split; [| split].
  - cbn [skipn]. rewrite (for_each_net_rows _ _ Hrows 0 0). reflexivity.
  - reflexivity.
  - intros Hrx Htx.
    rewrite !int_truediv_ok by (change (Z.abs 1024) with 1024; lia).
    reflexivity.
Qed.

Lemma read_net_dev_sums_witness :
  read_net_dev (net_dev host_a)
  = Ok ((inject_Z (2048 + 1024) / inject_Z 1024)%Q,
        (inject_Z (1024 + 512) / inject_Z 1024)%Q).
Proof.
  destruct (read_net_dev_sums net_header_1 net_header_2
              (skipn 2 (net_dev host_a))
              [None; Some (2048, 1024); Some (1024, 512)])
    as (_ & _ & Hexact); [| apply Hexact; vm_compute; discriminate].
  repeat constructor.
  - apply (net_row_lo _ "    lo"
             "    4096      10    0    0    0     0          0         0     4096      10    0    0    0     0       0          0");
      reflexivity.
  - apply (net_row_iface _ "  eth0"
             "    2048      20    0    0    0     0          0         0     1024      15    0    0    0     0       0          0"
             [2048; 20; 0; 0; 0; 0; 0; 0; 1024; 15; 0; 0; 0; 0; 0; 0]);
      try reflexivity. discriminate.
  - apply (net_row_iface _ " wlan0"
             "    1024       5    0    0    0     0          0         0      512       4    0    0    0     0       0          0"
             [1024; 5; 0; 0; 0; 0; 0; 0; 512; 4; 0; 0; 0; 0; 0; 0]);
      try reflexivity. discriminate.
Defined.

(** ** Malformed lines *)


Lemma py_int_fails (p : string) :
  int_opt p = None -> py_int p = Raise ValueError.
Proof. unfold py_int. intros ->. reflexivity. Qed.










(** ** The CPU line *)

Lemma map_int_length (xs : list string) :
  forall vals, map_int xs = Ok vals -> List.length xs = List.length vals.
Proof.
  induction xs as [| x rest IH]; intros vals H; cbn in H.
  - injection H as <-. reflexivity.
  - bind_inv H as n En. bind_inv H as ns Ens. injection H as <-.
    cbn. f_equal. exact (IH ns Ens).
Qed.

Lemma slice_first_seven (A : Type) (label : A) (fs extra : list A) :
  List.length fs = 7%nat ->
  slice (label :: fs ++ extra) 1 8 = fs.
Proof.
  intros Hlen. unfold slice. change (8 - 1)%nat with 7%nat. cbn [skipn].
  rewrite <- Hlen, firstn_app, Nat.sub_diag, firstn_all.
  cbn [firstn]. apply app_nil_r.
Qed.

(** C10. On a CPU line of a label, seven numeric fields and any further
    fields, [read_cpu_times] returns the fourth of the seven as idle and
    the sum of exactly the seven as total; the further fields (steal,
    guest, guest_nice) are neither converted nor added. *)
Theorem read_cpu_times_first_seven :
  forall (line label : string) (fs extra : list string)
         (user nice system idle iowait irq softirq : Z),
    py_split line = label :: fs ++ extra ->
    map_int fs = Ok [user; nice; system; idle; iowait; irq; softirq] ->
    read_cpu_times line
    = Ok (idle, user + nice + system + idle + iowait + irq + softirq).
Proof.
  intros line label fs extra user nice system idle iowait irq softirq
         Hsplit Hvals.
  unfold read_cpu_times. rewrite Hsplit.
  rewrite (slice_first_seven _ label fs extra (map_int_length _ _ Hvals)).
  rewrite Hvals. cbn. reflexivity.
Qed.

Lemma read_cpu_times_first_seven_witness :
  read_cpu_times "cpu  800 100 500 1200 2100 550 550 7 n/a 0"
  = Ok (1200, 800 + 100 + 500 + 1200 + 2100 + 550 + 550).
Proof.
  apply (read_cpu_times_first_seven _ "cpu"
           ["800"; "100"; "500"; "1200"; "2100"; "550"; "550"]
           ["7"; "n/a"; "0"]);
    reflexivity.
Defined.

(** ** Truncation of the status line *)

Lemma slice_to_nonneg (A : Type) (xs : list A) (k : Z) :
  0 <= k -> slice_to xs k = firstn (Z.to_nat k) xs.
Proof.
  intros Hk. unfold slice_to.
  destruct (k <? 0) eqn:E; [apply Z.ltb_lt in E; lia | reflexivity].
Qed.

(** C8. On a terminal that reports 2 columns, or 0 columns, the status
    line is longer than the width and its truncation is not of that
    width: with 2 columns only the last character is dropped before the
    dots are added, with 0 columns the last three. *)
Lemma truncate_narrow_terminal :
  Z.of_nat (List.length status_line_b) = 89 /\
  Z.of_nat (List.length (truncate dot status_line_b (Some 2))) = 91 /\
  Z.of_nat (List.length (truncate dot status_line_b (Some 2))) <> 2 /\
  Z.of_nat (List.length (truncate dot status_line_b (Some 0))) = 89 /\
  Z.of_nat (List.length (truncate dot status_line_b (Some 0))) <> 0.
Proof.
  split; [reflexivity |].
  split; [reflexivity |].
  split; [vm_compute; intros H; discriminate H |].
  split; [reflexivity |].
  vm_compute. intros H. discriminate H.
Qed.

(** C8, amended. For a terminal width N of at least 3 columns, a line
    longer than N is truncated to exactly N characters: its first N-3
    characters followed by the three dots.  For any width, a line of
    length at most N is left unchanged. *)
Theorem truncate_to_width :
  forall (A : Type) (dot : A) (line : list A) (cols : Z),
    (3 <= cols -> Z.of_nat (List.length line) > cols ->
       truncate dot line (Some cols)
       = firstn (Z.to_nat (cols - 3)) line ++ [dot; dot; dot] /\
       Z.of_nat (List.length (truncate dot line (Some cols))) = cols) /\
    (Z.of_nat (List.length line) <= cols ->
       truncate dot line (Some cols) = line).
Proof.
  intros A d line cols. unfold truncate. split.
  - intros Hcols Hlong.
    destruct (Z.of_nat (List.length line) >? cols) eqn:E;
      [| rewrite Z.gtb_ltb in E; apply Z.ltb_ge in E; lia].
    rewrite slice_to_nonneg by lia. split; [reflexivity |].
    rewrite length_app, firstn_length_le by lia. cbn [List.length]. lia.
  - intros Hshort.
    destruct (Z.of_nat (List.length line) >? cols) eqn:E; [| reflexivity].
    rewrite Z.gtb_ltb in E. apply Z.ltb_lt in E. lia.
Qed.

Lemma truncate_to_width_witness :
  (truncate dot status_line_b (Some 80)
   = firstn 77 status_line_b ++ [dot; dot; dot] /\
   Z.of_nat (List.length (truncate dot status_line_b (Some 80))) = 80) /\
  truncate dot status_line_b (Some 89) = status_line_b.
Proof.
  split.
  - apply (truncate_to_width Z dot status_line_b 80); [lia | reflexivity].
  - apply (truncate_to_width Z dot status_line_b 89).
    vm_compute. intros H. discriminate H.
Defined.

(** * Further properties of the readers and of the loop

    As above, a statement on a value is one that holds of the doubles
    the program computes; where that needs the operands to be exactly
    representable, the bound is a hypothesis. *)

(** ** [read_cpu_times] on short and on damaged lines *)

Lemma map_int_error (xs : list string) (e : exn) :
  map_int xs = Raise e -> e = ValueError.
Proof.
  induction xs as [| x rest IH]; cbn [map_int]; [discriminate |].
  unfold py_int. destruct (int_opt x); cbn [bind].
  - destruct (map_int rest) as [ns | e']; cbn [bind]; [discriminate |].
    intros [= <-]. apply IH. reflexivity.
  - intros [= <-]. reflexivity.
Qed.

Lemma map_int_bad (xs : list string) (x : string) :
  In x xs -> int_opt x = None -> map_int xs = Raise ValueError.
Proof.
  intros Hin Hbad.
  destruct (map_int xs) as [vals | e] eqn:E.
  - exfalso. revert vals E. induction xs as [| y rest IH]; intros vals E.
    + destruct Hin.
    + cbn [map_int] in E. bind_inv E as n En. bind_inv E as ns Ens.
      destruct Hin as [-> | Hin].
      * unfold py_int in En. rewrite Hbad in En. discriminate En.
      * exact (IH Hin ns Ens).
  - rewrite (map_int_error _ _ E). reflexivity.
Qed.

Lemma map_int_numeric (xs : list string) :
  Forall (fun x => int_opt x <> None) xs ->
  exists vals, map_int xs = Ok vals /\ List.length vals = List.length xs.
Proof.
  induction 1 as [| x rest Hx _ (ns & Ens & Hlen)]; cbn [map_int].
  - exists []. split; reflexivity.
  - unfold py_int. destruct (int_opt x) as [n |]; [| contradiction].
    cbn [bind]. rewrite Ens. cbn [bind]. exists (n :: ns).
    split; [reflexivity | cbn; f_equal; exact Hlen].
Qed.

Lemma slice_length_le (A : Type) (xs : list A) (lo hi : nat) :
  (List.length (slice xs lo hi) <= List.length xs - lo)%nat.
Proof.
  unfold slice. rewrite length_firstn, length_skipn. lia.
Qed.

Lemma sum_from (vals : list Z) (acc : Z) :
  fold_left Z.add vals acc = acc + sum vals.
Proof.
  unfold sum. revert acc. induction vals as [| v rest IH]; intros acc; cbn.
  - lia.
  - rewrite (IH (acc + v)), (IH v). lia.
Qed.

Lemma sum_cons (v : Z) (vals : list Z) : sum (v :: vals) = v + sum vals.
Proof. unfold sum at 1. cbn. apply sum_from. Qed.

Lemma sum_nonneg (vals : list Z) :
  Forall (fun v => 0 <= v) vals -> 0 <= sum vals.
Proof.
  induction 1 as [| v rest Hv _ IH]; [reflexivity |].
  rewrite sum_cons. lia.
Qed.

Lemma sum_bounds_member (vals : list Z) (i : nat) (v : Z) :
  Forall (fun v => 0 <= v) vals ->
  nth_error vals i = Some v ->
  0 <= v <= sum vals.
Proof.
  intros Hpos. revert i. induction Hpos as [| w rest Hw Hrest IH]; intros i Hi.
  - destruct i; discriminate Hi.
  - rewrite sum_cons. pose proof (sum_nonneg _ Hrest) as Hsum.
    destruct i as [| i]; cbn in Hi.
    + injection Hi as <-. lia.
    + specialize (IH i Hi). lia.
Qed.

(** X1. A CPU line whose label is followed by fewer than four fields, all
    of them numeric, makes [read_cpu_times] raise [IndexError]; so does an
    empty line. *)
Theorem read_cpu_times_too_short :
  forall line : string,
    (List.length (py_split line) <= 4)%nat ->
    Forall (fun x => int_opt x <> None) (slice (py_split line) 1 8) ->
    read_cpu_times line = Raise IndexError.
Proof.
  intros line Hlen Hnum. unfold read_cpu_times.
  destruct (map_int_numeric _ Hnum) as (vals & Hvals & Hvlen).
  rewrite Hvals. cbn [bind].
  pose proof (slice_length_le _ (py_split line) 1 8) as Hs.
  rewrite index_short by lia. reflexivity.
Qed.

Lemma read_cpu_times_too_short_witness :
  read_cpu_times "cpu  600 100 300" = Raise IndexError /\
  read_cpu_times "" = Raise IndexError.
Proof.
  split.
  - apply (read_cpu_times_too_short "cpu  600 100 300").
    + vm_compute. lia.
    + vm_compute. repeat constructor; discriminate.
  - apply (read_cpu_times_too_short "").
    + vm_compute. lia.
    + vm_compute. constructor.
Defined.

(** X2. A non-numeric field among the seven that follow the label makes
    [read_cpu_times] raise [ValueError], also on a line that is too short:
    the conversion comes before the indexing. *)
Theorem read_cpu_times_non_numeric :
  forall (line x : string),
    In x (slice (py_split line) 1 8) ->
    int_opt x = None ->
    read_cpu_times line = Raise ValueError.
Proof.
  intros line x Hin Hbad. unfold read_cpu_times.
  rewrite (map_int_bad _ x Hin Hbad). reflexivity.
Qed.

Lemma read_cpu_times_non_numeric_witness :
  read_cpu_times "cpu  600 n/a" = Raise ValueError.
Proof.
  apply (read_cpu_times_non_numeric "cpu  600 n/a" "n/a").
  - vm_compute. right. left. reflexivity.
  - reflexivity.
Defined.

(** X3. Seven fields are not required: with four to seven numeric fields
    after the label and nothing else, [read_cpu_times] returns the fourth
    as idle and the sum of the fields present as total. *)
Theorem read_cpu_times_partial_line :
  forall (line label : string) (fs : list string) (vals : list Z),
    py_split line = label :: fs ->
    (4 <= List.length fs <= 7)%nat ->
    map_int fs = Ok vals ->
    exists idle,
      nth_error vals 3 = Some idle /\
      read_cpu_times line = Ok (idle, sum vals).
Proof.
  intros line label fs vals Hsplit [Hlo Hhi] Hvals.
  pose proof (map_int_length _ _ Hvals) as Hlen.
  destruct (nth_error vals 3) as [idle |] eqn:Hidle.
  - exists idle. split; [reflexivity |].
    unfold read_cpu_times. rewrite Hsplit.
    unfold slice. change (8 - 1)%nat with 7%nat. cbn [skipn].
    rewrite firstn_all2 by lia. rewrite Hvals. cbn [bind].
    rewrite (index_some _ _ _ _ Hidle). reflexivity.
  - apply nth_error_None in Hidle. lia.
Qed.

Lemma read_cpu_times_partial_line_witness :
  exists idle,
    nth_error [600; 100; 300; 1000; 2000] 3 = Some idle /\
    read_cpu_times "cpu  600 100 300 1000 2000"
    = Ok (idle, sum [600; 100; 300; 1000; 2000]).
Proof.
  apply (read_cpu_times_partial_line "cpu  600 100 300 1000 2000" "cpu"
           ["600"; "100"; "300"; "1000"; "2000"]).
  - reflexivity.
  - cbn. lia.
  - reflexivity.
Defined.

(** X4. When none of the fields read is negative, the idle value returned
    by [read_cpu_times] lies between 0 and the total. *)
Theorem read_cpu_times_idle_le_total :
  forall (line : string) (vals : list Z) (idle total : Z),
    map_int (slice (py_split line) 1 8) = Ok vals ->
    Forall (fun v => 0 <= v) vals ->
    read_cpu_times line = Ok (idle, total) ->
    0 <= idle <= total.
Proof.
  intros line vals idle total Hvals Hpos. unfold read_cpu_times.
  rewrite Hvals. cbn [bind]. unfold index.
  destruct (nth_error vals 3) as [v |] eqn:Hv; cbn [bind]; [| discriminate].
  intros [= <- <-]. exact (sum_bounds_member _ 3 _ Hpos Hv).
Qed.

Lemma read_cpu_times_idle_le_total_witness : 0 <= 1200 <= 5800.
Proof.
  apply (read_cpu_times_idle_le_total
           "cpu  800 100 500 1200 2100 550 550 7 0 0"
           [800; 100; 500; 1200; 2100; 550; 550]).
  - reflexivity.
  - repeat constructor; lia.
  - reflexivity.
Defined.

(** ** Range of the CPU percentage *)

(** X5. When the idle ticks did not go backward and grew no faster than
    the total ticks, the CPU percentage lies between 0 and 100. *)
Theorem cpu_pct_in_range :
  forall (prev : Prev) (idle1 total1 : Z) (q : Q),
    cpu_idle prev <= idle1 ->
    idle1 - cpu_idle prev <= total1 - cpu_total prev ->
    cpu_pct prev idle1 total1 = Ok q ->
    (0 <= q <= 100)%Q.
Proof.
  intros prev idle1 total1 q Hidle Hslow Hq.
  split; [exact (cpu_pct_nonneg _ _ _ _ Hidle Hslow Hq) |].
  destruct (cpu_pct_value _ _ _ _ Hq) as [[_ ->] | [E ->]].
  - discriminate.
  - assert (Hpos : (0 < inject_Z (total1 - cpu_total prev))%Q)
      by (apply inject_Z_pos; lia).
    assert (Hge : (0 <= inject_Z (idle1 - cpu_idle prev)
                        / inject_Z (total1 - cpu_total prev))%Q).
    { apply Qle_shift_div_l; [exact Hpos |].
      rewrite Qmult_0_l. rewrite <- (Zle_Qle 0). lia. }
    lra.
Qed.

Lemma cpu_pct_in_range_witness :
  (0 <= (1 - inject_Z (1200 - 1000) / inject_Z (5800 - 5000)) * 100 <= 100)%Q.
Proof.
  apply (cpu_pct_in_range prev_a 1200 5800); [cbn; lia | cbn; lia |].
  vm_compute. reflexivity.
Defined.

(** X6. Nothing keeps the CPU percentage inside [0, 100].  While the
    total advances and the quotient fits a double, the value is above
    100 when the idle counter went backward by at least 2^-52 of the
    total delta, and below 0 when the idle counter advanced beyond the
    total by at least 2^-52 of it. *)
Theorem cpu_pct_outside_range :
  forall (prev : Prev) (idle1 total1 : Z),
    0 < total1 - cpu_total prev ->
    Z.abs (idle1 - cpu_idle prev) < dbl_overflow * (total1 - cpu_total prev) ->
    exists q,
      cpu_pct prev idle1 total1 = Ok q /\
      (total1 - cpu_total prev <= - (idle1 - cpu_idle prev) * 2 ^ 52 ->
         (100 < q)%Q) /\
      (total1 - cpu_total prev
       <= (idle1 - cpu_idle prev - (total1 - cpu_total prev)) * 2 ^ 52 ->
         (q < 0)%Q).
Proof.
  intros prev idle1 total1 Htotal Hfit.
  rewrite cpu_pct_nonzero by lia.
  rewrite int_truediv_ok by lia. cbn [bind].
  eexists. split; [reflexivity |].
  assert (Hpos : (0 < inject_Z (total1 - cpu_total prev))%Q)
    by (apply inject_Z_pos; lia).
  split.
  - intros Hback.
    assert (Hneg : (inject_Z (idle1 - cpu_idle prev)
                    / inject_Z (total1 - cpu_total prev) < 0)%Q).
    { apply Qlt_shift_div_r; [exact Hpos |].
      rewrite Qmult_0_l. rewrite <- (Zlt_Qlt _ 0). lia. }
    lra.
  - intros Hfast.
    assert (Hbig : (1 < inject_Z (idle1 - cpu_idle prev)
                        / inject_Z (total1 - cpu_total prev))%Q).
    { apply Qlt_shift_div_l; [exact Hpos |].
      rewrite Qmult_1_l. rewrite <- Zlt_Qlt. lia. }
    lra.
Qed.

Lemma cpu_pct_outside_range_witness :
  (exists q, cpu_pct prev_a 900 5800 = Ok q /\ (100 < q)%Q) /\
  (exists q, cpu_pct prev_a 2000 5800 = Ok q /\ (q < 0)%Q).
Proof.
  split.
  - destruct (cpu_pct_outside_range prev_a 900 5800) as (q & Hq & Hhigh & _);
      [vm_compute; reflexivity | vm_compute; reflexivity |].
    exists q. split; [exact Hq | apply Hhigh; vm_compute; discriminate].
  - destruct (cpu_pct_outside_range prev_a 2000 5800) as (q & Hq & _ & Hlow);
      [vm_compute; reflexivity | vm_compute; reflexivity |].
    exists q. split; [exact Hq | apply Hlow; vm_compute; discriminate].
Defined.

(** ** The gauges: exceptions and range *)

(** X7. The exceptions of [read_mem_percent], in the order the source
    meets them: a first line with fewer than two fields gives
    [IndexError] and a non-numeric second field [ValueError], whatever the
    second line holds; then the same two for the second line. *)
Theorem read_mem_percent_errors :
  forall (total_line free_line : string),
    ((List.length (py_split total_line) <= 1)%nat ->
       read_mem_percent total_line free_line = Raise IndexError) /\
    (forall t,
       index (py_split total_line) 1 = Ok t -> int_opt t = None ->
       read_mem_percent total_line free_line = Raise ValueError) /\
    (forall t total,
       index (py_split total_line) 1 = Ok t -> py_int t = Ok total ->
       (List.length (py_split free_line) <= 1)%nat ->
       read_mem_percent total_line free_line = Raise IndexError) /\
    (forall t total f,
       index (py_split total_line) 1 = Ok t -> py_int t = Ok total ->
       index (py_split free_line) 1 = Ok f -> int_opt f = None ->
       read_mem_percent total_line free_line = Raise ValueError).
Proof.
  intros total_line free_line. unfold read_mem_percent.
  split; [| split; [| split]].
  - intros Hlen. rewrite (index_short _ _ 1 Hlen). reflexivity.
  - intros t Ht Hbad. rewrite Ht. cbn [bind].
    rewrite (py_int_fails _ Hbad). reflexivity.
  - intros t total Ht Htotal Hlen. rewrite Ht. cbn [bind].
    rewrite Htotal. cbn [bind]. rewrite (index_short _ _ 1 Hlen). reflexivity.
  - intros t total f Ht Htotal Hf Hbad. rewrite Ht. cbn [bind].
    rewrite Htotal. cbn [bind]. rewrite Hf. cbn [bind].
    rewrite (py_int_fails _ Hbad). reflexivity.
Qed.

Lemma read_mem_percent_errors_witness :
  read_mem_percent "MemTotal:" "n/a" = Raise IndexError /\
  read_mem_percent "MemTotal: lots kB" "" = Raise ValueError /\
  read_mem_percent "MemTotal: 8000000 kB" "MemFree:" = Raise IndexError /\
  read_mem_percent "MemTotal: 8000000 kB" "MemFree: some kB"
    = Raise ValueError.
Proof.
  split; [| split; [| split]].
  - destruct (read_mem_percent_errors "MemTotal:" "n/a") as (H & _).
    apply H. vm_compute. lia.
  - destruct (read_mem_percent_errors "MemTotal: lots kB" "")
      as (_ & H & _).
    apply (H "lots"); reflexivity.
  - destruct (read_mem_percent_errors "MemTotal: 8000000 kB" "MemFree:")
      as (_ & _ & H & _).
    apply (H "8000000" 8000000); [reflexivity | reflexivity |].
    vm_compute. lia.
  - destruct (read_mem_percent_errors "MemTotal: 8000000 kB"
                "MemFree: some kB") as (_ & _ & _ & H).
    apply (H "8000000" 8000000 "some"); reflexivity.
Defined.

Lemma percent_in_range (used total : Z) :
  0 <= used <= total -> 0 < total ->
  (0 <= inject_Z used * 100 / inject_Z total <= 100)%Q.
Proof.
  intros [Hlo Hhi] Hpos.
  pose proof (inject_Z_pos _ Hpos) as Hq.
  assert (H0 : (0 <= inject_Z used)%Q) by (rewrite <- (Zle_Qle 0); exact Hlo).
  assert (H1 : (inject_Z used <= inject_Z total)%Q)
    by (rewrite <- Zle_Qle; exact Hhi).
  split.
  - apply Qle_shift_div_l; [exact Hq | lra].
  - apply Qle_shift_div_r; [exact Hq | lra].
Qed.

Lemma percent_returns (used total : Z) :
  0 <= used <= total -> 0 < total -> total * 100 <= 2 ^ 53 ->
  (x <- int_mul_float used 100 ;; float_div_int x total)
  = Ok (inject_Z used * 100 / inject_Z total)%Q.
Proof.
  intros Hused Hpos Hsmall. pose proof dbl_overflow_above_exact as Hexact.
  unfold int_mul_float. rewrite float_of_int_ok by lia. cbn [bind].
  apply float_div_int_nonzero; lia.
Qed.

(** X8. With a positive total of at most 2^53 / 100 and a free amount
    between 0 and the total, the memory gauge returns a percentage
    between 0 and 100. *)
Theorem read_mem_percent_in_range :
  forall (total_line free_line t f : string) (total free : Z),
    index (py_split total_line) 1 = Ok t -> py_int t = Ok total ->
    index (py_split free_line) 1 = Ok f -> py_int f = Ok free ->
    0 < total -> 0 <= free <= total -> total * 100 <= 2 ^ 53 ->
    exists q,
      read_mem_percent total_line free_line = Ok q /\ (0 <= q <= 100)%Q.
Proof.
  intros total_line free_line t f total free Ht Htotal Hf Hfree
         Hpos Hrange Hsmall.
  rewrite (read_mem_percent_parsed _ _ _ _ _ _ Ht Htotal Hf Hfree).
  rewrite percent_returns by lia.
  eexists. split; [reflexivity |].
  apply percent_in_range; lia.
Qed.

Lemma read_mem_percent_in_range_witness :
  exists q,
    read_mem_percent (meminfo_total host_a) (meminfo_free host_a) = Ok q /\
    (0 <= q <= 100)%Q.
Proof.
  apply (read_mem_percent_in_range _ _ "8000000" "2000000" 8000000 2000000);
    try reflexivity; lia.
Defined.

(** X9. On a file system of at least one block and at most 2^53 / 100
    bytes, with a positive fragment size and a free count between 0 and
    the block count, the disk gauge returns a percentage between 0 and
    100. *)
Theorem read_disk_usage_percent_in_range :
  forall st : Statvfs,
    0 < f_blocks st -> 0 < f_frsize st ->
    0 <= f_bfree st <= f_blocks st ->
    f_blocks st * f_frsize st * 100 <= 2 ^ 53 ->
    exists q,
      read_disk_usage_percent st = Ok q /\ (0 <= q <= 100)%Q.
Proof.
  intros st Hblocks Hsize Hfree Hsmall. unfold read_disk_usage_percent.
  rewrite percent_returns by nia.
  eexists. split; [reflexivity |].
  apply percent_in_range; nia.
Qed.

Lemma read_disk_usage_percent_in_range_witness :
  exists q,
    read_disk_usage_percent (mkStatvfs 1000 250 4096) = Ok q /\
    (0 <= q <= 100)%Q.
Proof.
  apply (read_disk_usage_percent_in_range (mkStatvfs 1000 250 4096));
    cbn; lia.
Defined.

(** ** The allow-list of device names *)

Lemma prefix_append (p suffix : string) :
  String.prefix p (String.append p suffix) = true.
Proof.
  induction p as [| a p IH]; cbn.
  - destruct suffix; reflexivity.
  - destruct (ascii_dec a a) as [_ | Hne]; [exact IH | contradiction].
Qed.

Lemma prefix_split (p name : string) :
  String.prefix p name = true ->
  exists suffix, name = String.append p suffix.
Proof.
  revert name. induction p as [| a p IH]; intros name H.
  - exists name. reflexivity.
  - destruct name as [| b name]; cbn in H; [discriminate |].
    destruct (ascii_dec a b) as [<- | _]; [| discriminate].
    destruct (IH name H) as (suffix & ->).
    exists suffix. reflexivity.
Qed.

(** X10. A device is summed by [read_disk_io] exactly when its name is
    [sd], [nvme] or [hd] followed by anything (possibly nothing): the test
    is a prefix test, so the partitions of a disk pass it as the disk
    does. *)
Theorem startswith_disk_prefixes :
  forall name : string,
    startswith name disk_prefixes = true <->
    exists p suffix,
      In p ["sd"; "nvme"; "hd"] /\ name = String.append p suffix.
Proof.
  intros name. unfold startswith. rewrite existsb_exists. split.
  - intros (p & Hin & Hp). destruct (prefix_split _ _ Hp) as (suffix & ->).
    exists p, suffix. split; [exact Hin | reflexivity].
  - intros (p & suffix & Hin & ->). exists p.
    split; [exact Hin | apply prefix_append].
Qed.

Lemma startswith_disk_prefixes_witness :
  startswith "nvme0n1p2" disk_prefixes = true.
Proof.
  apply (startswith_disk_prefixes "nvme0n1p2").
  exists "nvme", "0n1p2". split; [right; left; reflexivity | reflexivity].
Defined.

(** ** Order of the lines *)

Section ForEachOrder.

Variable S : Type.
Variable body : string -> S -> result S.

(** Two successful steps can be exchanged. *)
Hypothesis body_swap :
  forall (x y : string) (s s1 s2 : S),
    body x s = Ok s1 -> body y s1 = Ok s2 ->
    exists s1', body y s = Ok s1' /\ body x s1' = Ok s2.

Lemma for_each_permutation (l l' : list string) :
  Permutation l l' ->
  forall (s r : S), for_each body l s = Ok r -> for_each body l' s = Ok r.
Proof.
  induction 1 as [| x l l' _ IH | x y l | l l' l'' _ IH1 _ IH2];
    intros s r H.
  - exact H.
  - cbn [for_each] in *. bind_inv H as s1 E1.
    rewrite E1. cbn [bind]. apply IH. exact H.
  - cbn [for_each] in *. bind_inv H as s1 E1. bind_inv H as s2 E2.
    destruct (body_swap _ _ _ _ _ E1 E2) as (s1' & Ex & Ey).
    rewrite Ex. cbn [bind]. rewrite Ey. cbn [bind]. exact H.
  - apply IH2, IH1. exact H.
Qed.

End ForEachOrder.

Lemma disk_line_shift (line : string) (rs ws : Z) :
  disk_line line (rs, ws)
  = match disk_line line (0, 0) with
    | Ok (r, w) => Ok (rs + r, ws + w)
    | Raise e => Raise e
    end.
Proof.
  unfold disk_line.
  destruct (index (py_split line) 2) as [name | e]; cbn [bind];
    [| reflexivity].
  destruct (startswith name disk_prefixes).
  - destruct (index (py_split line) 5) as [p5 | e]; cbn [bind];
      [| reflexivity].
    destruct (py_int p5) as [r | e]; cbn [bind]; [| reflexivity].
    destruct (index (py_split line) 9) as [p9 | e]; cbn [bind];
      [| reflexivity].
    destruct (py_int p9) as [w | e]; cbn [bind]; reflexivity.
  - rewrite !Z.add_0_r. reflexivity.
Qed.

Lemma net_line_shift (line : string) (rx tx : Z) :
  net_line line (rx, tx)
  = match net_line line (0, 0) with
    | Ok (r, t) => Ok (rx + r, tx + t)
    | Raise e => Raise e
    end.
Proof.
  unfold net_line.
  destruct (unpack2 (split_colon line "")) as [[iface data] | e];
    cbn [bind]; [| reflexivity].
  destruct (String.eqb (py_strip iface) "lo").
  - rewrite !Z.add_0_r. reflexivity.
  - destruct (map_int (py_split data)) as [vals | e]; cbn [bind];
      [| reflexivity].
    destruct (index vals 0) as [v0 | e]; cbn [bind]; [| reflexivity].
    destruct (index vals 8) as [v8 | e]; cbn [bind]; reflexivity.
Qed.

Lemma shift_swap (body : string -> Z * Z -> result (Z * Z)) :
  (forall line a b,
     body line (a, b)
     = match body line (0, 0) with
       | Ok (r, w) => Ok (a + r, b + w)
       | Raise e => Raise e
       end) ->
  forall (x y : string) (s s1 s2 : Z * Z),
    body x s = Ok s1 -> body y s1 = Ok s2 ->
    exists s1', body y s = Ok s1' /\ body x s1' = Ok s2.
Proof.
  intros Hshift x y [a b] [a1 b1] [a2 b2] Hx Hy.
  rewrite Hshift in Hx. rewrite Hshift in Hy.
  destruct (body x (0, 0)) as [[rx wx] | e] eqn:Ex; [| discriminate].
  destruct (body y (0, 0)) as [[ry wy] | e] eqn:Ey; [| discriminate].
  injection Hx as <- <-. injection Hy as <- <-.
  exists (a + ry, b + wy). split.
  - rewrite Hshift, Ey. reflexivity.
  - rewrite Hshift, Ex. f_equal. f_equal; lia.
Qed.

Lemma for_each_order (body : string -> Z * Z -> result (Z * Z))
  (l l' : list string) (s : Z * Z) :
  (forall line a b,
     body line (a, b)
     = match body line (0, 0) with
       | Ok (r, w) => Ok (a + r, b + w)
       | Raise e => Raise e
       end) ->
  Permutation l l' ->
  (succeeds (for_each body l s) -> for_each body l' s = for_each body l s) /\
  (raises (for_each body l s) -> raises (for_each body l' s)).
Proof.
  intros Hshift Hperm. split.
  - destruct (for_each body l s) as [r |] eqn:E; [intros _ | intros []].
    exact (for_each_permutation _ body (shift_swap body Hshift) _ _ Hperm _ _ E).
  - destruct (for_each body l' s) as [r |] eqn:E; [| intros _; exact I].
    apply Permutation_sym in Hperm.
    rewrite (for_each_permutation _ body (shift_swap body Hshift)
               _ _ Hperm _ _ E).
    intros [].
Qed.

(** X11. The result of [read_disk_io] does not depend on the order of the
    lines: when it returns on a file it returns the same pair on every
    reordering of the lines, and when it raises it raises on every
    reordering. *)
Theorem read_disk_io_order :
  forall lines lines' : list string,
    Permutation lines lines' ->
    (succeeds (read_disk_io lines) ->
       read_disk_io lines' = read_disk_io lines) /\
    (raises (read_disk_io lines) -> raises (read_disk_io lines')).
Proof.
  intros lines lines' Hperm.
  destruct (for_each_order disk_line lines lines' (0, 0)
              disk_line_shift Hperm) as [Hok Hbad].
  unfold read_disk_io. split.
  - destruct (for_each disk_line lines (0, 0)) as [[rs ws] |] eqn:E;
      [intros _ | intros []].
    rewrite (Hok I). reflexivity.
  - destruct (for_each disk_line lines (0, 0)) as [[rs ws] |] eqn:E.
    + rewrite (Hok I). intros H. exact H.
    + intros _. apply bind_raises. exact (Hbad I).
Qed.

Lemma read_disk_io_order_witness :
  read_disk_io (rev (diskstats host_a)) = read_disk_io (diskstats host_a) /\
  raises (read_disk_io (rev (diskstats host_d))).
Proof.
  split.
  - destruct (read_disk_io_order (diskstats host_a) (rev (diskstats host_a))
                (Permutation_rev _)) as [Hok _].
    apply Hok. vm_compute. exact I.
  - destruct (read_disk_io_order (diskstats host_d) (rev (diskstats host_d))
                (Permutation_rev _)) as [_ Hbad].
    apply Hbad. vm_compute. exact I.
Defined.

(** X12. The result of [read_net_dev] does not depend on the order of the
    interface lines, nor on what the two header lines hold. *)
Theorem read_net_dev_order :
  forall (h1 h2 h1' h2' : string) (body body' : list string),
    Permutation body body' ->
    (succeeds (read_net_dev (h1 :: h2 :: body)) ->
       read_net_dev (h1' :: h2' :: body') = read_net_dev (h1 :: h2 :: body)) /\
    (raises (read_net_dev (h1 :: h2 :: body)) ->
       raises (read_net_dev (h1' :: h2' :: body'))).
Proof.
  intros h1 h2 h1' h2' body body' Hperm.
  destruct (for_each_order net_line body body' (0, 0)
              net_line_shift Hperm) as [Hok Hbad].
  unfold read_net_dev. cbn [skipn]. split.
  - destruct (for_each net_line body (0, 0)) as [[rx tx] |] eqn:E;
      [intros _ | intros []].
    rewrite (Hok I). reflexivity.
  - destruct (for_each net_line body (0, 0)) as [[rx tx] |] eqn:E.
    + rewrite (Hok I). intros H. exact H.
    + intros _. apply bind_raises. exact (Hbad I).
Qed.

Lemma read_net_dev_order_witness :
  read_net_dev ("" :: "" :: rev (skipn 2 (net_dev host_a)))
  = read_net_dev (net_dev host_a).
Proof.
  destruct (read_net_dev_order net_header_1 net_header_2 "" ""
              (skipn 2 (net_dev host_a)) (rev (skipn 2 (net_dev host_a)))
              (Permutation_rev _)) as [Hok _].
  apply Hok. vm_compute. exact I.
Defined.

(** ** Empty statistics and conversion of the sums *)

(** X13. On a network statistics file of at most two lines (empty, or
    headers only) [read_net_dev] does not fail and returns zero for both
    directions. *)
Theorem read_net_dev_headers_only :
  forall lines : list string,
    (List.length lines <= 2)%nat ->
    exists rx tx,
      read_net_dev lines = Ok (rx, tx) /\ (rx == 0)%Q /\ (tx == 0)%Q.
Proof.
  intros lines Hlen. unfold read_net_dev.
  rewrite skipn_all2 by exact Hlen. cbn [for_each bind].
  pose proof dbl_overflow_pos as Hpos.
  rewrite int_truediv_ok by (change (Z.abs 1024) with 1024; cbn [Z.abs]; lia).
  cbn [bind].
  do 2 eexists. split; [reflexivity |]. split; reflexivity.
Qed.

Lemma read_net_dev_headers_only_witness :
  exists rx tx,
    read_net_dev [net_header_1; net_header_2] = Ok (rx, tx) /\
    (rx == 0)%Q /\ (tx == 0)%Q.
Proof.
  apply (read_net_dev_headers_only [net_header_1; net_header_2]).
  cbn. lia.
Defined.

Lemma scaled_le (a b c : Z) :
  0 < c -> a <= b -> (inject_Z a / inject_Z c <= inject_Z b / inject_Z c)%Q.
Proof.
  intros Hc Hab. unfold Qdiv. apply Qmult_le_compat_r.
  - rewrite <- Zle_Qle. exact Hab.
  - apply Qlt_le_weak, Qinv_lt_0_compat, inject_Z_pos, Hc.
Qed.

Lemma pair_truediv_inv (a b c : Z) (x y : Q) :
  (x' <- int_truediv a c ;; y' <- int_truediv b c ;; Ok (x', y')) = Ok (x, y) ->
  x = (inject_Z a / inject_Z c)%Q /\ y = (inject_Z b / inject_Z c)%Q.
Proof.
  intros H. bind_inv H as x' Ex. bind_inv H as y' Ey.
  injection H as <- <-.
  destruct (int_truediv_inv _ _ _ Ex) as (_ & _ & ->).
  destruct (int_truediv_inv _ _ _ Ey) as (_ & _ & ->).
  split; reflexivity.
Qed.

(** X14. The conversion to megabytes keeps the order of the sums: when
    [read_disk_io] returns on two well-formed disk statistics, the one
    with the larger sum of read sectors has the larger (or equal) read
    value, and likewise for the write sectors. *)
Theorem read_disk_io_monotone :
  forall (lines1 lines2 : list string) (rows1 rows2 : list (option (Z * Z)))
         (rd1 wr1 rd2 wr2 : Q),
    Forall2 disk_row lines1 rows1 ->
    Forall2 disk_row lines2 rows2 ->
    read_disk_io lines1 = Ok (rd1, wr1) ->
    read_disk_io lines2 = Ok (rd2, wr2) ->
    (sum_fst rows1 <= sum_fst rows2 -> (rd1 <= rd2)%Q) /\
    (sum_snd rows1 <= sum_snd rows2 -> (wr1 <= wr2)%Q).
Proof.
  intros lines1 lines2 rows1 rows2 rd1 wr1 rd2 wr2 H1 H2.
  rewrite (read_disk_io_rows _ _ H1), (read_disk_io_rows _ _ H2).
  intros E1 E2.
  destruct (pair_truediv_inv _ _ _ _ _ E1) as [-> ->].
  destruct (pair_truediv_inv _ _ _ _ _ E2) as [-> ->].
  split; intros H; apply scaled_le; lia.
Qed.

Lemma read_disk_io_monotone_witness :
  exists rd1 wr1 rd2 wr2,
    read_disk_io (diskstats host_a) = Ok (rd1, wr1) /\
    read_disk_io (diskstats host_b) = Ok (rd2, wr2) /\
    (rd1 <= rd2)%Q /\ (wr1 <= wr2)%Q.
Proof.
  do 4 eexists.
  split; [vm_compute; reflexivity |]. split; [vm_compute; reflexivity |].
  destruct (read_disk_io_monotone (diskstats host_a) (diskstats host_b)
              [None; Some (100, 300); Some (2000, 64)]
              [None; Some (2148, 300); Some (2000, 4160)]
              (1075200 # 1048576) (186368 # 1048576)
              (2123776 # 1048576) (2283520 # 1048576))
    as (Hrd & Hwr).
  - repeat constructor.
    + apply (disk_row_other _ "loop0"); reflexivity.
    + apply (disk_row_disk _ "sda" "100" "300"); reflexivity.
    + apply (disk_row_disk _ "sdb" "2000" "64"); reflexivity.
  - repeat constructor.
    + apply (disk_row_other _ "loop0"); reflexivity.
    + apply (disk_row_disk _ "sda" "2148" "300"); reflexivity.
    + apply (disk_row_disk _ "sdb" "2000" "4160"); reflexivity.
  - vm_compute. reflexivity.
  - vm_compute. reflexivity.
  - split; [apply Hrd | apply Hwr]; cbn; lia.
Defined.

(** X15. The conversion to kilobytes keeps the order of the sums: when
    [read_net_dev] returns on two well-formed network statistics, the one
    with the larger sum of received bytes has the larger (or equal) rx
    value, and likewise for the transmitted bytes. *)
Theorem read_net_dev_monotone :
  forall (h1 h2 h1' h2' : string) (body1 body2 : list string)
         (rows1 rows2 : list (option (Z * Z))) (rx1 tx1 rx2 tx2 : Q),
    Forall2 net_row body1 rows1 ->
    Forall2 net_row body2 rows2 ->
    read_net_dev (h1 :: h2 :: body1) = Ok (rx1, tx1) ->
    read_net_dev (h1' :: h2' :: body2) = Ok (rx2, tx2) ->
    (sum_fst rows1 <= sum_fst rows2 -> (rx1 <= rx2)%Q) /\
    (sum_snd rows1 <= sum_snd rows2 -> (tx1 <= tx2)%Q).
Proof.
  intros h1 h2 h1' h2' body1 body2 rows1 rows2 rx1 tx1 rx2 tx2 H1 H2.
  rewrite (read_net_dev_rows _ _ _ _ H1), (read_net_dev_rows _ _ _ _ H2).
  intros E1 E2.
  destruct (pair_truediv_inv _ _ _ _ _ E1) as [-> ->].
  destruct (pair_truediv_inv _ _ _ _ _ E2) as [-> ->].
  split; intros H; apply scaled_le; lia.
Qed.

Lemma read_net_dev_monotone_witness :
  exists rx1 tx1 rx2 tx2,
    read_net_dev [net_header_1; net_header_2] = Ok (rx1, tx1) /\
    read_net_dev ["a"; "b"; "lo: 7 n/a"; "eth0: 5 0 0 0 0 0 0 0 9"]
      = Ok (rx2, tx2) /\
    (rx1 <= rx2)%Q /\ (tx1 <= tx2)%Q.
Proof.
  do 4 eexists.
  split; [vm_compute; reflexivity |]. split; [vm_compute; reflexivity |].
  destruct (read_net_dev_monotone net_header_1 net_header_2 "a" "b" []
              ["lo: 7 n/a"; "eth0: 5 0 0 0 0 0 0 0 9"]
              [] [None; Some (5, 9)]
              (0 # 1024) (0 # 1024) (5 # 1024) (9 # 1024))
    as (Hrx & Htx).
  - constructor.
  - repeat constructor.
    + apply (net_row_lo _ "lo" " 7 n/a"); reflexivity.
    + apply (net_row_iface _ "eth0" " 5 0 0 0 0 0 0 0 9"
               [5; 0; 0; 0; 0; 0; 0; 0; 9]); try reflexivity. discriminate.
  - vm_compute. reflexivity.
  - vm_compute. reflexivity.
  - split; [apply Hrx | apply Htx]; cbn; lia.
Defined.

(** ** The tick and the readers *)

Lemma cpu_pct_same_snapshot (prev : Prev) :
  cpu_pct prev (cpu_idle prev) (cpu_total prev) = Ok 0%Q.
Proof. apply cpu_pct_zero. apply Z.sub_diag. Qed.

(** The CPU formula returns exactly when the total did not move or the
    quotient of the deltas fits a double. *)
Lemma cpu_pct_succeeds_iff (prev : Prev) (idle1 total1 : Z) :
  succeeds (cpu_pct prev idle1 total1) <->
  total1 - cpu_total prev = 0 \/
  Z.abs (idle1 - cpu_idle prev)
  < dbl_overflow * Z.abs (total1 - cpu_total prev).
Proof.
  destruct (Z.eq_dec (total1 - cpu_total prev) 0) as [E | E].
  - rewrite (cpu_pct_zero _ _ _ E). cbn. tauto.
  - rewrite (cpu_pct_nonzero _ _ _ E). split.
    + destruct (int_truediv _ _) as [q |] eqn:D; cbn [bind succeeds];
        [intros _ | intros []].
      right. exact (proj1 (proj2 (int_truediv_inv _ _ _ D))).
    + intros [Hz | Hfit]; [contradiction |].
      rewrite (int_truediv_ok _ _ E Hfit). exact I.
Qed.

Lemma tick_intro (prev : Prev) (h : Host) (idle1 total1 : Z)
  (cpu ram dsk rd1 wr1 rx1 tx1 : Q) :
  read_cpu_times (proc_stat h) = Ok (idle1, total1) ->
  cpu_pct prev idle1 total1 = Ok cpu ->
  read_mem_percent (meminfo_total h) (meminfo_free h) = Ok ram ->
  read_disk_usage_percent (statvfs_root h) = Ok dsk ->
  read_disk_io (diskstats h) = Ok (rd1, wr1) ->
  read_net_dev (net_dev h) = Ok (rx1, tx1) ->
  tick prev h
  = Ok (mkMetrics cpu ram dsk
          (rd1 - disk_read prev) (wr1 - disk_write prev)
          (rx1 - net_rx prev) (tx1 - net_tx prev),
        mkPrev idle1 total1 rd1 wr1 rx1 tx1).
Proof.
  intros Hcpu Hpct Hram Hdsk Hio Hnet. unfold tick.
  rewrite Hcpu. cbn [bind]. rewrite Hpct. cbn [bind].
  rewrite Hram. cbn [bind]. rewrite Hdsk. cbn [bind].
  rewrite Hio. cbn [bind]. rewrite Hnet. reflexivity.
Qed.

Lemma tick_gauges (prev : Prev) (h : Host) (m : Metrics) (prev' : Prev) :
  tick prev h = Ok (m, prev') ->
  read_mem_percent (meminfo_total h) (meminfo_free h) = Ok (m_ram_pct m) /\
  read_disk_usage_percent (statvfs_root h) = Ok (m_disk_pct m).
Proof.
  unfold tick. intros H.
  bind_inv H as [idle1 total1] Ecpu.
  bind_inv H as cpu Epct.
  bind_inv H as ram Eram.
  bind_inv H as dsk Edsk.
  bind_inv H as [rd1 wr1] Eio.
  bind_inv H as [rx1 tx1] Enet.
  injection H as <- <-. split; assumption.
Qed.

Lemma seed_inv (h : Host) (prev : Prev) :
  seed h = Ok prev ->
  read_cpu_times (proc_stat h) = Ok (cpu_idle prev, cpu_total prev) /\
  read_disk_io (diskstats h) = Ok (disk_read prev, disk_write prev) /\
  read_net_dev (net_dev h) = Ok (net_rx prev, net_tx prev).
Proof.
  unfold seed. intros H.
  bind_inv H as [idle0 total0] Ecpu.
  bind_inv H as [rd0 wr0] Eio.
  bind_inv H as [rx0 tx0] Enet.
  injection H as <-. repeat split; assumption.
Qed.

Lemma seed_intro (h : Host) (idle0 total0 : Z) (rd0 wr0 rx0 tx0 : Q) :
  read_cpu_times (proc_stat h) = Ok (idle0, total0) ->
  read_disk_io (diskstats h) = Ok (rd0, wr0) ->
  read_net_dev (net_dev h) = Ok (rx0, tx0) ->
  seed h = Ok (mkPrev idle0 total0 rd0 wr0 rx0 tx0).
Proof.
  intros Hcpu Hio Hnet. unfold seed.
  rewrite Hcpu. cbn [bind]. rewrite Hio. cbn [bind]. rewrite Hnet.
  reflexivity.
Qed.

(** X16. The first iteration runs right after the seeding, before any
    sleep: on a host that did not change in between it reports a CPU
    percentage of exactly 0 and zero disk and network rates, and it stores
    the seeded snapshot again. *)
Theorem first_tick_on_unchanged_host :
  forall (h : Host) (prev : Prev) (ram dsk : Q),
    seed h = Ok prev ->
    read_mem_percent (meminfo_total h) (meminfo_free h) = Ok ram ->
    read_disk_usage_percent (statvfs_root h) = Ok dsk ->
    exists m,
      tick prev h = Ok (m, prev) /\
      m_cpu_pct m = 0%Q /\ m_ram_pct m = ram /\ m_disk_pct m = dsk /\
      (m_rd_rate m == 0)%Q /\ (m_wr_rate m == 0)%Q /\
      (m_rx_rate m == 0)%Q /\ (m_tx_rate m == 0)%Q.
Proof.
  intros h prev ram dsk Hseed Hram Hdsk.
  destruct (seed_inv _ _ Hseed) as (Hcpu & Hio & Hnet).
  eexists. split.
  - rewrite (tick_intro prev h _ _ _ _ _ _ _ _ _ Hcpu
               (cpu_pct_same_snapshot prev) Hram Hdsk Hio Hnet).
    destruct prev; reflexivity.
  - cbn. repeat split; try reflexivity; ring.
Qed.

Lemma first_tick_on_unchanged_host_witness :
  exists m,
    tick prev_a host_a = Ok (m, prev_a) /\
    m_cpu_pct m = 0%Q /\
    m_ram_pct m = (inject_Z (8000000 - 2000000) * 100 / inject_Z 8000000)%Q /\
    m_disk_pct m
    = (inject_Z ((1000 - 250) * 4096) * 100 / inject_Z (1000 * 4096))%Q /\
    (m_rd_rate m == 0)%Q /\ (m_wr_rate m == 0)%Q /\
    (m_rx_rate m == 0)%Q /\ (m_tx_rate m == 0)%Q.
Proof.
  apply (first_tick_on_unchanged_host host_a prev_a); reflexivity.
Defined.

(** X17. The snapshot a tick stores is the one the seeding would take on
    the same host state: it holds what the three counter readers return
    and owes nothing to the previous snapshot. *)
Theorem tick_stores_seed :
  forall (prev : Prev) (h : Host) (m : Metrics) (prev' : Prev),
    tick prev h = Ok (m, prev') -> seed h = Ok prev'.
Proof.
  intros prev h m prev' Htick.
  destruct (tick_inv _ _ _ _ Htick) as (Hcpu & _ & Hio & Hnet & _).
  rewrite (seed_intro h _ _ _ _ _ _ Hcpu Hio Hnet).
  destruct prev'; reflexivity.
Qed.

Lemma tick_stores_seed_witness :
  match tick prev_a host_b with
  | Ok (_, prev') => seed host_b = Ok prev'
  | Raise _ => False
  end.
Proof.
  destruct (tick prev_a host_b) as [[m prev'] | e] eqn:Htick.
  - exact (tick_stores_seed prev_a host_b m prev' Htick).
  - vm_compute in Htick. discriminate Htick.
Defined.

(** X18. A tick returns exactly when its five readers return and the
    CPU formula does, that is when the total ticks did not move or the
    quotient of the two deltas fits a double; the four rate differences
    never fail. *)
Theorem tick_succeeds_iff :
  forall (prev : Prev) (h : Host),
    succeeds (tick prev h) <->
    exists idle1 total1,
      read_cpu_times (proc_stat h) = Ok (idle1, total1) /\
      (total1 - cpu_total prev = 0 \/
       Z.abs (idle1 - cpu_idle prev)
       < dbl_overflow * Z.abs (total1 - cpu_total prev)) /\
      succeeds (read_mem_percent (meminfo_total h) (meminfo_free h)) /\
      succeeds (read_disk_usage_percent (statvfs_root h)) /\
      succeeds (read_disk_io (diskstats h)) /\
      succeeds (read_net_dev (net_dev h)).
Proof.
  intros prev h. split.
  - destruct (tick prev h) as [[m prev'] |] eqn:Htick; [intros _ | intros []].
    destruct (tick_inv _ _ _ _ Htick) as (Hcpu & Hpct & Hio & Hnet & _).
    destruct (tick_gauges _ _ _ _ Htick) as (Hram & Hdsk).
    exists (cpu_idle prev'), (cpu_total prev').
    split; [exact Hcpu |]. split.
    + apply cpu_pct_succeeds_iff. rewrite Hpct. exact I.
    + rewrite Hram, Hdsk, Hio, Hnet. cbn. tauto.
  - intros (idle1 & total1 & Ecpu & Hfit & Hram & Hdsk & Hio & Hnet).
    apply cpu_pct_succeeds_iff in Hfit.
    destruct (cpu_pct prev idle1 total1) as [cpu |] eqn:Epct;
      [| destruct Hfit].
    destruct (read_mem_percent _ _) as [ram |] eqn:Eram; [| destruct Hram].
    destruct (read_disk_usage_percent _) as [dsk |] eqn:Edsk;
      [| destruct Hdsk].
    destruct (read_disk_io _) as [[rd1 wr1] |] eqn:Eio; [| destruct Hio].
    destruct (read_net_dev _) as [[rx1 tx1] |] eqn:Enet; [| destruct Hnet].
    rewrite (tick_intro prev h _ _ _ _ _ _ _ _ _ Ecpu Epct Eram Edsk Eio Enet).
    exact I.
Qed.

Lemma tick_succeeds_iff_witness :
  succeeds (tick prev_a host_b) /\
  ~ succeeds (tick prev_a host_d).
Proof.
  split.
  - apply (tick_succeeds_iff prev_a host_b).
    exists 1200, 5800. split; [reflexivity |].
    split; [right; vm_compute; reflexivity |].
    vm_compute. tauto.
  - intros H. apply (tick_succeeds_iff prev_a host_d) in H.
    destruct H as (_ & _ & _ & _ & _ & _ & Hio & _).
    vm_compute in Hio. exact Hio.
Defined.

(** X19. A failing tick raises the exception of the first step that
    fails, in the order of the source: CPU times, CPU formula, memory
    gauge, disk-usage gauge, disk I/O, network.  Later steps are not
    reached. *)
Theorem tick_first_exception :
  forall (prev : Prev) (h : Host) (e : exn),
    (read_cpu_times (proc_stat h) = Raise e -> tick prev h = Raise e) /\
    (forall idle1 total1,
       read_cpu_times (proc_stat h) = Ok (idle1, total1) ->
       (cpu_pct prev idle1 total1 = Raise e -> tick prev h = Raise e) /\
       (succeeds (cpu_pct prev idle1 total1) ->
        (read_mem_percent (meminfo_total h) (meminfo_free h) = Raise e ->
           tick prev h = Raise e) /\
        (succeeds (read_mem_percent (meminfo_total h) (meminfo_free h)) ->
         (read_disk_usage_percent (statvfs_root h) = Raise e ->
            tick prev h = Raise e) /\
         (succeeds (read_disk_usage_percent (statvfs_root h)) ->
          (read_disk_io (diskstats h) = Raise e -> tick prev h = Raise e) /\
          (succeeds (read_disk_io (diskstats h)) ->
           read_net_dev (net_dev h) = Raise e ->
           tick prev h = Raise e))))).
Proof.
  intros prev h e. unfold tick.
  destruct (read_cpu_times (proc_stat h)) as [[idle1' total1'] | e1];
    cbn [bind]; (split; [congruence |]); intros idle1 total1 [= <- <-].
  destruct (cpu_pct prev idle1' total1') as [cpu | e2];
    cbn [bind succeeds]; (split; [congruence |]); [intros _ | intros []].
  destruct (read_mem_percent _ _) as [ram | e3];
    cbn [bind succeeds]; (split; [congruence |]); [intros _ | intros []].
  destruct (read_disk_usage_percent _) as [dsk | e4];
    cbn [bind succeeds]; (split; [congruence |]); [intros _ | intros []].
  destruct (read_disk_io _) as [[rd1 wr1] | e5];
    cbn [bind succeeds]; (split; [congruence |]); [intros _ | intros []].
  destruct (read_net_dev _) as [[rx1 tx1] | e6]; cbn [bind]; congruence.
Qed.

Lemma tick_first_exception_witness :
  tick (mkPrev (1 - 10 ^ 400) 0 0 0 0 0)
    (mkHost "cpu 0 0 0 1 0 0 0" "MemTotal: 0 kB" "MemFree: 0 kB"
       (mkStatvfs 0 0 0) ["short"] ["no"; "colon"; "here"])
  = Raise OverflowError /\
  tick prev_a
    (mkHost "cpu 1 2 3 4 5 6 7" "MemTotal: 0 kB" "MemFree: 0 kB"
       (mkStatvfs 0 0 0) ["short"] ["no"; "colon"; "here"])
  = Raise ZeroDivisionError.
Proof.
  split.
  - destruct (tick_first_exception (mkPrev (1 - 10 ^ 400) 0 0 0 0 0)
                (mkHost "cpu 0 0 0 1 0 0 0" "MemTotal: 0 kB" "MemFree: 0 kB"
                   (mkStatvfs 0 0 0) ["short"] ["no"; "colon"; "here"])
                OverflowError) as (_ & H).
    destruct (H 1 1) as (Hcpu & _); [reflexivity |].
    apply Hcpu. vm_compute. reflexivity.
  - destruct (tick_first_exception prev_a
                (mkHost "cpu 1 2 3 4 5 6 7" "MemTotal: 0 kB" "MemFree: 0 kB"
                   (mkStatvfs 0 0 0) ["short"] ["no"; "colon"; "here"])
                ZeroDivisionError) as (_ & H).
    destruct (H 4 28) as (_ & Hnext); [reflexivity |].
    destruct Hnext as (Hmem & _); [vm_compute; exact I |].
    apply Hmem. vm_compute. reflexivity.
Defined.

(** ** Runs of the loop *)

Lemma last_cons (A : Type) (a d : A) (l : list A) :
  last (a :: l) d = last l a.
Proof.
  revert a d. induction l as [| b l IH]; intros a d; [reflexivity |].
  change (last (a :: b :: l) d) with (last (b :: l) d).
  rewrite (IH b d), (IH b a). reflexivity.
Qed.

Lemma final_prev_cons (prev : Prev) (m : Metrics) (prev' : Prev)
  (outs : list (Metrics * Prev)) :
  final_prev prev ((m, prev') :: outs) = final_prev prev' outs.
Proof. unfold final_prev. cbn [map snd]. apply last_cons. Qed.

(** X20. Running the loop over two successive stretches of host states is
    running it over the first and then, from the snapshot it ended with,
    over the second; if a tick of the first stretch raised, the second
    stretch is never reached. *)
Theorem ticks_app :
  forall (hosts1 hosts2 : list Host) (prev : Prev),
    (List.length (ticks prev hosts1) = List.length hosts1 ->
       ticks prev (hosts1 ++ hosts2)
       = ticks prev hosts1
         ++ ticks (final_prev prev (ticks prev hosts1)) hosts2) /\
    ((List.length (ticks prev hosts1) < List.length hosts1)%nat ->
       ticks prev (hosts1 ++ hosts2) = ticks prev hosts1).
Proof.
  induction hosts1 as [| h rest IH]; intros hosts2 prev.
  - cbn. split; [reflexivity | lia].
  - cbn [app ticks List.length].
    destruct (tick prev h) as [[m prev'] | e].
    + destruct (IH hosts2 prev') as [Hall Hcut].
      rewrite final_prev_cons. cbn [List.length app]. split; intros Hlen.
      * rewrite Hall by lia. reflexivity.
      * rewrite Hcut by lia. reflexivity.
    + cbn. split; [discriminate | reflexivity].
Qed.

Lemma ticks_app_witness :
  ticks prev_a ([host_a; host_b] ++ [host_c])
  = ticks prev_a [host_a; host_b]
    ++ ticks (final_prev prev_a (ticks prev_a [host_a; host_b])) [host_c] /\
  ticks prev_a ([host_b; host_d] ++ [host_c]) = ticks prev_a [host_b; host_d].
Proof.
  split.
  - destruct (ticks_app [host_a; host_b] [host_c] prev_a) as [Hall _].
    apply Hall. reflexivity.
  - destruct (ticks_app [host_b; host_d] [host_c] prev_a) as [_ Hcut].
    apply Hcut. vm_compute. lia.
Defined.

(** X21. The loop remembers one snapshot only: two runs over the same
    host states from different starting snapshots, each completing its
    first tick, store the same snapshots and differ at most in the
    metrics of that first tick. *)
Theorem ticks_forget_start :
  forall (h : Host) (rest : list Host) (p1 p2 : Prev),
    succeeds (tick p1 h) -> succeeds (tick p2 h) ->
    map snd (ticks p1 (h :: rest)) = map snd (ticks p2 (h :: rest)) /\
    skipn 1 (ticks p1 (h :: rest)) = skipn 1 (ticks p2 (h :: rest)).
Proof.
  intros h rest p1 p2 H1 H2. cbn [ticks].
  destruct (tick p1 h) as [[m1 s1] |] eqn:E1; [| destruct H1].
  destruct (tick p2 h) as [[m2 s2] |] eqn:E2; [| destruct H2].
  assert (Hs : s1 = s2).
  { destruct (tick_inv _ _ _ _ E1) as (Hcpu1 & _ & Hio1 & Hnet1 & _).
    destruct (tick_inv _ _ _ _ E2) as (Hcpu2 & _ & Hio2 & Hnet2 & _).
    rewrite Hcpu1 in Hcpu2. rewrite Hio1 in Hio2. rewrite Hnet1 in Hnet2.
    destruct s1, s2. cbn in *. congruence. }
  subst s2. split; reflexivity.
Qed.

Lemma ticks_forget_start_witness :
  map snd (ticks prev_a [host_b; host_c])
  = map snd (ticks (mkPrev 0 0 0 0 0 0) [host_b; host_c]) /\
  skipn 1 (ticks prev_a [host_b; host_c])
  = skipn 1 (ticks (mkPrev 0 0 0 0 0 0) [host_b; host_c]).
Proof.
  apply (ticks_forget_start host_b [host_c] prev_a (mkPrev 0 0 0 0 0 0));
    vm_compute; exact I.
Defined.

(** ** More on the truncation *)

Lemma truncate_fits (A : Type) (d : A) (line : list A) (cols : Z) :
  Z.of_nat (List.length line) <= cols ->
  truncate d line (Some cols) = line.
Proof.
  intros Hfit. unfold truncate.
  destruct (Z.of_nat (List.length line) >? cols) eqn:E; [| reflexivity].
  rewrite Z.gtb_ltb in E. apply Z.ltb_lt in E. lia.
Qed.

Lemma truncate_long (A : Type) (d : A) (line : list A) (cols : Z) :
  Z.of_nat (List.length line) > cols ->
  truncate d line (Some cols) = slice_to line (cols - 3) ++ [d; d; d].
Proof.
  intros Hlong. unfold truncate.
  destruct (Z.of_nat (List.length line) >? cols) eqn:E; [reflexivity |].
  rewrite Z.gtb_ltb in E. apply Z.ltb_ge in E. lia.
Qed.

Lemma slice_to_length (A : Type) (xs : list A) (k : Z) :
  k <= Z.of_nat (List.length xs) ->
  Z.of_nat (List.length (slice_to xs k))
  = if k <? 0 then Z.max 0 (Z.of_nat (List.length xs) + k) else k.
Proof.
  intros Hk. unfold slice_to.
  destruct (k <? 0) eqn:E; rewrite length_firstn.
  - apply Z.ltb_lt in E. lia.
  - apply Z.ltb_ge in E. lia.
Qed.

(** X23. For a terminal of at least 3 columns the truncation is
    idempotent: truncating an already truncated line changes nothing. *)
Theorem truncate_idempotent :
  forall (A : Type) (d : A) (line : list A) (cols : Z),
    3 <= cols ->
    truncate d (truncate d line (Some cols)) (Some cols)
    = truncate d line (Some cols).
Proof.
  intros A d line cols Hcols.
  destruct (Z_le_gt_dec (Z.of_nat (List.length line)) cols) as [Hfit | Hlong].
  - rewrite (truncate_fits _ d line cols Hfit).
    apply truncate_fits. exact Hfit.
  - rewrite (truncate_long _ d line cols Hlong).
    apply truncate_fits.
    rewrite length_app, Nat2Z.inj_add, slice_to_length by lia.
    destruct (cols - 3 <? 0) eqn:E; [apply Z.ltb_lt in E; lia |].
    cbn [List.length]. lia.
Qed.

Lemma truncate_idempotent_witness :
  truncate dot (truncate dot status_line_b (Some 80)) (Some 80)
  = truncate dot status_line_b (Some 80).
Proof.
  apply (truncate_idempotent Z dot status_line_b 80). lia.
Defined.

(** X24. On a terminal of fewer than 3 columns a line longer than the
    width is not shortened to the width: the slice stop [cols - 3] is
    negative and counts from the end, so the result has
    [max 0 (len + cols - 3) + 3] characters, never fewer than 3. *)
Theorem truncate_narrow_length :
  forall (A : Type) (d : A) (line : list A) (cols : Z),
    cols < 3 ->
    Z.of_nat (List.length line) > cols ->
    Z.of_nat (List.length (truncate d line (Some cols)))
    = Z.max 0 (Z.of_nat (List.length line) + cols - 3) + 3.
Proof.
  intros A d line cols Hcols Hlong.
  rewrite (truncate_long _ d line cols Hlong).
  rewrite length_app, Nat2Z.inj_add, slice_to_length by lia.
  destruct (cols - 3 <? 0) eqn:E; [| apply Z.ltb_ge in E; lia].
  cbn [List.length]. lia.
Qed.

Lemma truncate_narrow_length_witness :
  Z.of_nat (List.length (truncate dot status_line_b (Some 1)))
  = Z.max 0 (Z.of_nat (List.length status_line_b) + 1 - 3) + 3.
Proof.
  apply (truncate_narrow_length Z dot status_line_b 1); [lia |].
  vm_compute. reflexivity.
Defined.

(** ** Which exceptions can occur *)

Lemma index_exn (A : Type) (xs : list A) (i : nat) (e : exn) :
  index xs i = Raise e -> e = IndexError.
Proof.
  unfold index. destruct (nth_error xs i); [discriminate |].
  intros [= <-]. reflexivity.
Qed.

Lemma py_int_exn (p : string) (e : exn) :
  py_int p = Raise e -> e = ValueError.
Proof.
  unfold py_int. destruct (int_opt p); [discriminate |].
  intros [= <-]. reflexivity.
Qed.

Lemma unpack2_exn (xs : list string) (e : exn) :
  unpack2 xs = Raise e -> e = ValueError.
Proof.
  destruct xs as [| a [| b [| c rest]]]; cbn; try discriminate;
    intros [= <-]; reflexivity.
Qed.

Lemma disk_line_exn (line : string) (acc : Z * Z) (e : exn) :
  disk_line line acc = Raise e -> parse_exn e.
Proof.
  destruct acc as [rs ws]. unfold disk_line, parse_exn.
  destruct (index (py_split line) 2) as [name | e0] eqn:E0; cbn [bind].
  - destruct (startswith name disk_prefixes); [| discriminate].
    destruct (index (py_split line) 5) as [p5 | e1] eqn:E1; cbn [bind].
    + destruct (py_int p5) as [r | e2] eqn:E2; cbn [bind].
      * destruct (index (py_split line) 9) as [p9 | e3] eqn:E3; cbn [bind].
        -- destruct (py_int p9) as [w | e4] eqn:E4; cbn [bind];
             [discriminate |].
           intros [= <-]. right. exact (py_int_exn _ _ E4).
        -- intros [= <-]. left. exact (index_exn _ _ _ _ E3).
      * intros [= <-]. right. exact (py_int_exn _ _ E2).
    + intros [= <-]. left. exact (index_exn _ _ _ _ E1).
  - intros [= <-]. left. exact (index_exn _ _ _ _ E0).
Qed.

Lemma net_line_exn (line : string) (acc : Z * Z) (e : exn) :
  net_line line acc = Raise e -> parse_exn e.
Proof.
  destruct acc as [rx tx]. unfold net_line, parse_exn.
  destruct (unpack2 (split_colon line "")) as [[iface data] | e0] eqn:E0;
    cbn [bind].
  - destruct (String.eqb (py_strip iface) "lo"); [discriminate |].
    destruct (map_int (py_split data)) as [vals | e1] eqn:E1; cbn [bind].
    + destruct (index vals 0) as [v0 | e2] eqn:E2; cbn [bind].
      * destruct (index vals 8) as [v8 | e3] eqn:E3; cbn [bind];
          [discriminate |].
        intros [= <-]. left. exact (index_exn _ _ _ _ E3).
      * intros [= <-]. left. exact (index_exn _ _ _ _ E2).
    + intros [= <-]. right. exact (map_int_error _ _ E1).
  - intros [= <-]. right. exact (unpack2_exn _ _ E0).
Qed.

Lemma for_each_exn (S : Type) (body : string -> S -> result S)
  (P : exn -> Prop) :
  (forall line s e, body line s = Raise e -> P e) ->
  forall lines s e, for_each body lines s = Raise e -> P e.
Proof.
  intros Hbody. induction lines as [| line rest IH]; intros s e;
    cbn [for_each]; [discriminate |].
  destruct (body line s) as [s' | e'] eqn:E; cbn [bind].
  - apply IH.
  - intros [= <-]. exact (Hbody _ _ _ E).
Qed.

Lemma read_cpu_times_exn (line : string) (e : exn) :
  read_cpu_times line = Raise e -> parse_exn e.
Proof.
  unfold read_cpu_times, parse_exn.
  destruct (map_int (slice (py_split line) 1 8)) as [vals | e1] eqn:E1;
    cbn [bind].
  - destruct (index vals 3) as [idle | e2] eqn:E2; cbn [bind];
      [discriminate |].
    intros [= <-]. left. exact (index_exn _ _ _ _ E2).
  - intros [= <-]. right. exact (map_int_error _ _ E1).
Qed.

Lemma pair_truediv_exn (a b c : Z) (e : exn) :
  c <> 0 ->
  (x <- int_truediv a c ;; y <- int_truediv b c ;; Ok (x, y)) = Raise e ->
  e = OverflowError.
Proof.
  intros Hc.
  destruct (int_truediv a c) as [x | e1] eqn:Ea; cbn [bind].
  - destruct (int_truediv b c) as [y | e2] eqn:Eb; cbn [bind];
      [discriminate |].
    intros [= <-].
    destruct (int_truediv_exn _ _ _ Eb) as [[Hz _] | [_ He]];
      [contradiction | exact He].
  - intros [= <-].
    destruct (int_truediv_exn _ _ _ Ea) as [[Hz _] | [_ He]];
      [contradiction | exact He].
Qed.

Lemma read_disk_io_exn (lines : list string) (e : exn) :
  read_disk_io lines = Raise e -> parse_exn e \/ e = OverflowError.
Proof.
  unfold read_disk_io.
  destruct (for_each disk_line lines (0, 0)) as [[rs ws] | e1] eqn:E1;
    cbn [bind].
  - intros H. right.
    exact (pair_truediv_exn _ _ (1024 ^ 2) e ltac:(discriminate) H).
  - intros [= <-]. left.
    exact (for_each_exn _ disk_line parse_exn disk_line_exn _ _ _ E1).
Qed.

Lemma read_net_dev_exn (lines : list string) (e : exn) :
  read_net_dev lines = Raise e -> parse_exn e \/ e = OverflowError.
Proof.
  unfold read_net_dev.
  destruct (for_each net_line (skipn 2 lines) (0, 0)) as [[rx tx] | e1] eqn:E1;
    cbn [bind].
  - intros H. right.
    exact (pair_truediv_exn _ _ 1024 e ltac:(discriminate) H).
  - intros [= <-]. left.
    exact (for_each_exn _ net_line parse_exn net_line_exn _ _ _ E1).
Qed.



(** X26. A tick raises [ZeroDivisionError] only through a gauge: when it
    does, the memory gauge or the disk-usage gauge raised it.  Neither the
    CPU formula nor the counter readers can. *)
Theorem tick_zero_division_from_gauge :
  forall (prev : Prev) (h : Host),
    tick prev h = Raise ZeroDivisionError ->
    read_mem_percent (meminfo_total h) (meminfo_free h)
      = Raise ZeroDivisionError \/
    read_disk_usage_percent (statvfs_root h) = Raise ZeroDivisionError.
Proof.
  intros prev h. unfold tick.
  destruct (read_cpu_times (proc_stat h)) as [[idle1 total1] | e1] eqn:E1;
    cbn [bind].
  - destruct (cpu_pct prev idle1 total1) as [cpu | e0] eqn:E0; cbn [bind];
      [| intros [= ->]; discriminate (cpu_pct_exn _ _ _ _ E0)].
    destruct (read_mem_percent _ _) as [ram | e2]; cbn [bind];
      [| intros [= ->]; left; reflexivity].
    destruct (read_disk_usage_percent _) as [dsk | e3]; cbn [bind];
      [| intros [= ->]; right; reflexivity].
    destruct (read_disk_io (diskstats h)) as [[rd1 wr1] | e4] eqn:E4;
      cbn [bind].
    + destruct (read_net_dev (net_dev h)) as [[rx1 tx1] | e5] eqn:E5;
        cbn [bind]; [discriminate |].
      intros [= ->].
      destruct (read_net_dev_exn _ _ E5) as [[H | H] | H]; discriminate H.
    + intros [= ->].
      destruct (read_disk_io_exn _ _ E4) as [[H | H] | H]; discriminate H.
  - intros [= ->]. destruct (read_cpu_times_exn _ _ E1); discriminate.
Qed.

Lemma tick_zero_division_from_gauge_witness :
  read_mem_percent "MemTotal: 8000000 kB" "MemFree: 2000000 kB"
    = Raise ZeroDivisionError \/
  read_disk_usage_percent (mkStatvfs 0 0 4096) = Raise ZeroDivisionError.
Proof.
  apply (tick_zero_division_from_gauge prev_a
           (mkHost (proc_stat host_b) "MemTotal: 8000000 kB"
              "MemFree: 2000000 kB" (mkStatvfs 0 0 4096)
              (diskstats host_b) (net_dev host_b))).
  vm_compute. reflexivity.
Defined.
